(** * FlexiMart ETL pipeline: a shallow embedding of [etl_pipeline.py]

    The development follows the source file top-down: the field helpers
    ([normalize_spaces], [normalize_phone], [parse_flex_date],
    [to_decimal_2]), the cleaning stages of [run_etl], and the load step
    against a small model of the MySQL connection.

    Conventions.
    - A Python [str] is a [string]; texts are taken to be ASCII.
    - A cell read by [pd.read_csv(dtype=str)] is an [option string], with
      [None] standing for NaN.
    - A float64 column value is modelled by the exact rational it
      denotes ([Q]); NaN is [None].  Binary rounding of float64 is outside
      the model.
    - The pandas parsers ([pd.to_numeric], [pd.to_datetime]) are library
      code: the pipeline is parametrised over them inside sections, and a
      concrete model covering plain decimal and numeric date texts is used
      for the worked examples. *)

From Stdlib Require Import ZArith QArith Qabs Ascii String Bool Lia.
From Stdlib Require Import DecimalString Lqa.
From stdpp Require Import gmap strings list sorting.

Local Open Scope Z_scope.

#[local] Set Warnings "-clear-no-such-hyp".

(** ** Python string primitives *)

Module PyStr.

Definition code (c : ascii) : nat := nat_of_ascii c.

(** [\d] restricted to ASCII. *)
Definition is_digit (c : ascii) : bool :=
  (48 <=? code c)%nat && (code c <=? 57)%nat.

(** [str.isspace] / [\s] restricted to ASCII: TAB..CR, FS..US and space. *)
Definition is_space (c : ascii) : bool :=
  ((9 <=? code c)%nat && (code c <=? 13)%nat)
  || ((28 <=? code c)%nat && (code c <=? 32)%nat).

Definition is_upper (c : ascii) : bool :=
  (65 <=? code c)%nat && (code c <=? 90)%nat.

Definition is_lower (c : ascii) : bool :=
  (97 <=? code c)%nat && (code c <=? 122)%nat.

Definition is_alpha (c : ascii) : bool := is_upper c || is_lower c.

Definition to_lower (c : ascii) : ascii :=
  if is_upper c then ascii_of_nat (code c + 32) else c.

Definition to_upper (c : ascii) : ascii :=
  if is_lower c then ascii_of_nat (code c - 32) else c.

Fixpoint filter (p : ascii -> bool) (s : string) : string :=
  match s with
  | EmptyString => EmptyString
  | String c s' => if p c then String c (filter p s') else filter p s'
  end.

Fixpoint all (p : ascii -> bool) (s : string) : bool :=
  match s with
  | EmptyString => true
  | String c s' => p c && all p s'
  end.

Fixpoint map (f : ascii -> ascii) (s : string) : string :=
  match s with
  | EmptyString => EmptyString
  | String c s' => String (f c) (map f s')
  end.

Fixpoint contains (c : ascii) (s : string) : bool :=
  match s with
  | EmptyString => false
  | String d s' => Ascii.eqb c d || contains c s'
  end.

Fixpoint drop (n : nat) (s : string) : string :=
  match n, s with
  | O, _ => s
  | S _, EmptyString => EmptyString
  | S n', String _ s' => drop n' s'
  end.

(** [s[-n:]] for [n > 0]. *)
Definition suffix (n : nat) (s : string) : string :=
  drop (String.length s - n) s.

(** [s.startswith(p)] *)
Definition startswith (p s : string) : bool := String.prefix p s.

(** [s.lstrip()], [s.rstrip()], [s.strip()] *)
Fixpoint lstrip (s : string) : string :=
  match s with
  | EmptyString => EmptyString
  | String c s' => if is_space c then lstrip s' else s
  end.

Fixpoint rstrip (s : string) : string :=
  match s with
  | EmptyString => EmptyString
  | String c s' =>
      match rstrip s' with
      | EmptyString => if is_space c then EmptyString else String c EmptyString
      | r => String c r
      end
  end.

Definition strip (s : string) : string := rstrip (lstrip s).

(** [re.sub(r"\s+", " ", s)]: every maximal run of white space becomes
    one space.  [in_run] records that the previous character was white
    space and has already produced its space. *)
Fixpoint collapse_spaces (in_run : bool) (s : string) : string :=
  match s with
  | EmptyString => EmptyString
  | String c s' =>
      if is_space c
      then (if in_run then collapse_spaces true s'
            else String " "%char (collapse_spaces true s'))
      else String c (collapse_spaces false s')
  end.

(** [s.split(d)] for a one-character separator. *)
Fixpoint split_acc (d : ascii) (cur : string) (s : string) : list string :=
  match s with
  | EmptyString => [cur]
  | String c s' =>
      if Ascii.eqb c d then cur :: split_acc d EmptyString s'
      else split_acc d (cur ++ String c EmptyString)%string s'
  end.

Definition split (d : ascii) (s : string) : list string :=
  split_acc d EmptyString s.

Definition lower (s : string) : string := map to_lower s.

(** [s.title()]: a cased character is upper-cased when it follows an
    uncased one (or starts the text) and lower-cased otherwise. *)
Fixpoint title_from (prev_cased : bool) (s : string) : string :=
  match s with
  | EmptyString => EmptyString
  | String c s' =>
      if is_alpha c
      then String (if prev_cased then to_lower c else to_upper c)
                  (title_from true s')
      else String c (title_from false s')
  end.

Definition title (s : string) : string := title_from false s.

Definition is_empty (s : string) : bool :=
  match s with EmptyString => true | _ => false end.

End PyStr.

(** ** Helpers of the source *)

(** [normalize_spaces]: NaN and [None] give the empty text. *)
Definition normalize_spaces (s : option string) : string :=
  match s with
  | None => EmptyString
  | Some s => PyStr.strip (PyStr.collapse_spaces false s)
  end.

Definition normalize_city (s : option string) : string :=
  let s := normalize_spaces s in
  if PyStr.is_empty s then EmptyString else PyStr.title s.

Definition normalize_category (s : option string) : string :=
  let s := PyStr.lower (normalize_spaces s) in
  if String.eqb s "electronics" then "Electronics"%string
  else if String.eqb s "fashion" then "Fashion"%string
  else if String.eqb s "groceries" then "Groceries"%string
  else if PyStr.is_empty s then EmptyString else PyStr.title s.

(** The variable [digits] of [normalize_phone] right after
    [re.sub(r"\D+", "", str(phone))]. *)
Definition digits_only (s : string) : string := PyStr.filter PyStr.is_digit s.

(** The variable [digits] after the [if]/[elif]/[elif] cascade. *)
Definition strip_prefixes (digits : string) : string :=
  if (String.length digits =? 12)%nat && PyStr.startswith "91" digits
  then PyStr.suffix 10 digits
  else if (String.length digits =? 11)%nat && PyStr.startswith "0" digits
  then PyStr.suffix 10 digits
  else if (10 <? String.length digits)%nat
  then PyStr.suffix 10 digits
  else digits.

Definition normalize_phone (phone : option string) : option string :=
  match phone with
  | None => None
  | Some p =>
      if PyStr.is_empty (PyStr.strip p) then None
      else
        let digits := strip_prefixes (digits_only p) in
        if negb (String.length digits =? 10)%nat then None
        else Some ("+91-" ++ digits)%string
  end.

(** ** Dates *)

Record date := Date { year : Z; month : Z; day : Z }.

#[global] Instance date_eq_dec : EqDecision date.
Proof. solve_decision. Defined.

(** [int(text)]: surrounding white space is ignored, one sign is allowed,
    and single underscores may separate digits. *)
Fixpoint int_digits (acc : Z) (after_digit : bool) (s : string) : option Z :=
  match s with
  | EmptyString => if after_digit then Some acc else None
  | String c s' =>
      if PyStr.is_digit c
      then int_digits (10 * acc + (Z.of_nat (PyStr.code c) - 48)) true s'
      else if Ascii.eqb c "_" && after_digit then
        match s' with
        | String c' _ => if PyStr.is_digit c' then int_digits acc false s' else None
        | EmptyString => None
        end
      else None
  end.

Definition int (text : string) : option Z :=
  match PyStr.strip text with
  | String "+" r => int_digits 0 false r
  | String "-" r => Z.opp <$> int_digits 0 false r
  | t => int_digits 0 false t
  end.

(** [re.match(r"^\d{4}-\d{2}-\d{2}$", s)].  The text tested is the result
    of [normalize_spaces], so it holds no newline and [$] is the end of
    the text. *)
Definition matches_iso_date (s : string) : bool :=
  match s with
  | String y1 (String y2 (String y3 (String y4 (String h1
      (String m1 (String m2 (String h2 (String d1 (String d2 EmptyString))))))))) =>
      PyStr.is_digit y1 && PyStr.is_digit y2 && PyStr.is_digit y3
      && PyStr.is_digit y4 && Ascii.eqb h1 "-"
      && PyStr.is_digit m1 && PyStr.is_digit m2 && Ascii.eqb h2 "-"
      && PyStr.is_digit d1 && PyStr.is_digit d2
  | _ => false
  end.

(** [delim = "/" if "/" in s else ("-" if "-" in s else None)] *)
Definition identify_delim (s : string) : option ascii :=
  if PyStr.contains "/" s then Some "/"%char
  else if PyStr.contains "-" s then Some "-"%char
  else None.

(** The flag computed by the rule of [parse_flex_date]. *)
Definition dayfirst_rule (ai bi : Z) : bool :=
  if 12 <? bi then false
  else if 12 <? ai then true
  else false.

Section FlexDate.

(** [pd.to_datetime(s, format="%Y-%m-%d").date()] and
    [pd.to_datetime(s, dayfirst=...).date()]; [None] is a raised
    exception or NaT. *)
Variable to_datetime_ymd : string -> option date.
Variable to_datetime : bool -> string -> option date.

Definition parse_flex_date (s : option string) : option date :=
  match s with
  | None => None
  | Some raw =>
      if PyStr.is_empty (PyStr.strip raw) then None
      else
        let s := normalize_spaces (Some raw) in
        if matches_iso_date s then to_datetime_ymd s
        else
          match identify_delim s with
          | None => to_datetime false s
          | Some delim =>
              match PyStr.split delim s with
              | [a; b; c] =>
                  if (String.length a =? 4)%nat then
                    match to_datetime_ymd s with
                    | Some d => Some d
                    | None => to_datetime false s
                    end
                  else
                    match int a, int b with
                    | Some ai, Some bi => to_datetime (dayfirst_rule ai bi) s
                    | _, _ => to_datetime false s
                    end
              | _ => to_datetime false s
              end
          end
  end.

End FlexDate.

(** *** A model of the pandas date parser on numeric date texts

    The fragment covered: [YYYY-MM-DD] for the explicit format; for the
    generic parser, year-first texts [YYYY-MM-DD] and [YYYY/MM/DD], the
    ISO year-month [YYYY-MM] (first day of the month), and delimited
    [P/Q/YYYY] or [P-Q-YYYY] with one- or two-digit [P] and [Q], read
    month-first unless [dayfirst] is set, the two being exchanged when
    only the exchanged reading is a calendar date.  Other texts are
    outside the fragment and give [None]. *)
Module Pandas.

Definition is_leap (y : Z) : bool :=
  (y mod 4 =? 0) && (negb (y mod 100 =? 0) || (y mod 400 =? 0)).

Definition days_in_month (y m : Z) : Z :=
  if (m =? 2) then (if is_leap y then 29 else 28)
  else if (m =? 4) || (m =? 6) || (m =? 9) || (m =? 11) then 30
  else 31.

Definition valid_date (y m d : Z) : bool :=
  (1 <=? y) && (1 <=? m) && (m <=? 12) && (1 <=? d) && (d <=? days_in_month y m).

Definition mk_date (y m d : Z) : option date :=
  if valid_date y m d then Some (Date y m d) else None.

(** An unsigned run of [lo] to [hi] digits. *)
Definition digits_between (lo hi : nat) (s : string) : option Z :=
  if PyStr.all PyStr.is_digit s
     && (lo <=? String.length s)%nat && (String.length s <=? hi)%nat
  then int_digits 0 false s else None.

Definition to_datetime_ymd (s : string) : option date :=
  match PyStr.split "-" s with
  | [a; b; c] =>
      match digits_between 4 4 a, digits_between 1 2 b, digits_between 1 2 c with
      | Some y, Some m, Some d => mk_date y m d
      | _, _, _ => None
      end
  | _ => None
  end.

Definition delimited (dayfirst : bool) (a b c : string) : option date :=
  match digits_between 4 4 a, digits_between 1 2 b, digits_between 1 2 c with
  | Some y, Some m, Some d => mk_date y m d
  | _, _, _ =>
      match digits_between 1 2 a, digits_between 1 2 b, digits_between 4 4 c with
      | Some p, Some q, Some y =>
          let '(m, d) := if dayfirst then (q, p) else (p, q) in
          match mk_date y m d with
          | Some r => Some r
          | None => mk_date y d m
          end
      | _, _, _ => None
      end
  end.

Definition to_datetime (dayfirst : bool) (s : string) : option date :=
  match identify_delim s with
  | None => None
  | Some delim =>
      match PyStr.split delim s with
      | [a; b; c] => delimited dayfirst a b c
      | [a; b] =>
          if Ascii.eqb delim "-" then
            match digits_between 4 4 a, digits_between 2 2 b with
            | Some y, Some m => mk_date y m 1
            | _, _ => None
            end
          else None
      | _ => None
      end
  end.

End Pandas.

(** ** Numbers *)

(** A [Decimal] quantized to [0.01]: the number of hundredths. *)
Record Decimal2 := Cents { cents : Z }.

#[global] Instance Decimal2_eq_dec : EqDecision Decimal2.
Proof. solve_decision. Defined.

Definition Decimal2_value (d : Decimal2) : Q := cents d # 100.

(** Nearest integer to [q], ties away from zero ([ROUND_HALF_UP]). *)
Definition round_half_up (q : Q) : Z :=
  let n := Qnum q in
  let d := Z.pos (Qden q) in
  Z.sgn n * ((2 * Z.abs n + d) / (2 * d)).

(** [to_decimal_2]: [Decimal(str(x)).quantize(Decimal("0.01"), ROUND_HALF_UP)] *)
Definition to_decimal_2 (x : Q) : Decimal2 :=
  Cents (round_half_up (x * 100)).

(** [.astype(int)] on a float column: truncation toward zero. *)
Definition astype_int (q : Q) : Z := Z.quot (Qnum q) (Z.pos (Qden q)).

(** [.fillna(0)] *)
Definition fillna0 (x : option Q) : Q := default 0%Q x.

(** Insertion sort, used for the median of a group. *)
Fixpoint insert_sorted (x : Q) (l : list Q) : list Q :=
  match l with
  | [] => [x]
  | y :: l' => if Qle_bool x y then x :: l else y :: insert_sorted x l'
  end.

Definition sort_Q (l : list Q) : list Q := foldr insert_sorted [] l.

(** [Series.median()] over the non-NaN values of a group: the middle value,
    or the mean of the two middle values; NaN for an empty group. *)
Definition median (values : list Q) : option Q :=
  let sorted := sort_Q values in
  let n := length sorted in
  if (n =? 0)%nat then None
  else if Nat.odd n then sorted !! (n / 2)%nat
  else
    match sorted !! (n / 2 - 1)%nat, sorted !! (n / 2)%nat with
    | Some a, Some b => Some ((a + b) / 2)%Q
    | _, _ => None
    end.

(** *** A model of [pd.to_numeric] on plain decimal literals

    The fragment covered: an optional sign, digits, and an optional
    fractional part ([12], [-3], [99.90], [.5], [7.]).  Other texts are
    outside the fragment and give [None] (NaN under [errors="coerce"]). *)
Module PandasNumeric.

Fixpoint digits_acc (acc : Z) (s : string) : Z :=
  match s with
  | EmptyString => acc
  | String c s' => digits_acc (10 * acc + (Z.of_nat (PyStr.code c) - 48)) s'
  end.

Definition pow10 (n : nat) : positive := Nat.iter n (Pos.mul 10) 1%positive.

Definition unsigned (s : string) : option Q :=
  match PyStr.split "." s with
  | [i] =>
      if PyStr.all PyStr.is_digit i && negb (PyStr.is_empty i)
      then Some (inject_Z (digits_acc 0 i)) else None
  | [i; f] =>
      if PyStr.all PyStr.is_digit i && PyStr.all PyStr.is_digit f
         && negb (PyStr.is_empty i && PyStr.is_empty f)
      then Some (Qred (digits_acc 0 (i ++ f) # pow10 (String.length f)))
      else None
  | _ => None
  end.

Definition to_numeric (s : string) : option Q :=
  match PyStr.strip s with
  | String "-" r => Qopp <$> unsigned r
  | String "+" r => unsigned r
  | t => unsigned t
  end.

End PandasNumeric.

(** ** Data frames

    A data frame is the list of its rows, in index order.  A row type is
    parametrised by the types of its cells, so that one record serves for
    the frame as read ([option string] cells), after
    [applymap(normalize_spaces)] ([string] cells) and after the columns
    have been overwritten by cleaned values. *)

Module Customers.
Record row (T P D : Type) := Row {
  customer_id : T; first_name : T; last_name : T; email : T;
  phone : P; city : T; registration_date : D }.
Arguments Row {T P D}.
Arguments customer_id {T P D}.
Arguments first_name {T P D}.
Arguments last_name {T P D}.
Arguments email {T P D}.
Arguments phone {T P D}.
Arguments city {T P D}.
Arguments registration_date {T P D}.

Definition csv := row (option string) (option string) (option string).
Definition raw := row string string string.
Definition clean := row string (option string) (option date).

Definition applymap (f : option string -> string) (r : csv) : raw :=
  Row (f (customer_id r)) (f (first_name r)) (f (last_name r)) (f (email r))
      (f (phone r)) (f (city r)) (f (registration_date r)).
End Customers.

Module Products.
Record row (T : Type) := Row {
  product_id : T; product_name : T; category : T; price : T;
  stock_quantity : T }.
Arguments Row {T}.
Arguments product_id {T}.
Arguments product_name {T}.
Arguments category {T}.
Arguments price {T}.
Arguments stock_quantity {T}.

Definition csv := row (option string).
Definition raw := row string.

Definition applymap (f : option string -> string) (r : csv) : raw :=
  Row (f (product_id r)) (f (product_name r)) (f (category r)) (f (price r))
      (f (stock_quantity r)).

(** A row of the frame once [price_num] has been added; NaN is [None]. *)
Record priced := Priced { priced_row : raw; price_parsed : option Q }.

(** A row of the cleaned frame, with [price_num] and [stock_num]. *)
Record clean := Clean { columns : raw; price_num : Q; stock_num : Z }.
End Products.

Module Sales.
Record row (T : Type) := Row {
  transaction_id : T; customer_id : T; product_id : T; quantity : T;
  unit_price : T; transaction_date : T; status : T }.
Arguments Row {T}.
Arguments transaction_id {T}.
Arguments customer_id {T}.
Arguments product_id {T}.
Arguments quantity {T}.
Arguments unit_price {T}.
Arguments transaction_date {T}.
Arguments status {T}.

Definition csv := row (option string).
Definition raw := row string.

Definition applymap (f : option string -> string) (r : csv) : raw :=
  Row (f (transaction_id r)) (f (customer_id r)) (f (product_id r))
      (f (quantity r)) (f (unit_price r)) (f (transaction_date r))
      (f (status r)).

(** A row of the cleaned frame, with the three added columns. *)
Record clean := Clean {
  columns : raw; quantity_num : Z; unit_price_num : Q;
  transaction_date_parsed : date }.
End Sales.

(** [df.drop_duplicates(subset=[key], keep="first")] *)
Section DropDuplicates.
Context {A : Type} (key : A -> string).

Fixpoint drop_duplicates_from (seen : list string) (l : list A) : list A :=
  match l with
  | [] => []
  | r :: l' =>
      if bool_decide (key r ∈ seen) then drop_duplicates_from seen l'
      else r :: drop_duplicates_from (key r :: seen) l'
  end.

Definition drop_duplicates (l : list A) : list A := drop_duplicates_from [] l.

End DropDuplicates.

(** Number of rows on which a boolean mask holds: [int(mask.sum())]. *)
Definition mask_sum {A} (mask : A -> bool) (l : list A) : nat :=
  length (filter (fun r => mask r = true) l).

(** [Series.isna()] on one cell. *)
Definition isna {A} (x : option A) : bool :=
  match x with None => true | Some _ => false end.

(** The dictionary [report]. *)
Record Report := {
  customers_raw : nat; products_raw : nat; sales_raw : nat;
  customers_dupes_removed : nat; products_dupes_removed : nat;
  sales_dupes_removed : nat;
  customers_missing_email_filled : nat; products_missing_price_imputed : nat;
  products_missing_stock_filled : nat;
  sales_missing_customer_dropped : nat; sales_missing_product_dropped : nat;
  sales_invalid_date_dropped : nat;
  customers_loaded : nat; products_loaded : nat; orders_loaded : nat;
  order_items_loaded : nat }.

(** ** Transform *)

Section Transform.

Variable to_numeric : string -> option Q.
Variable to_datetime_ymd : string -> option date.
Variable to_datetime : bool -> string -> option date.

Let parse_date := parse_flex_date to_datetime_ymd to_datetime.

(** *** Customers *)

Definition dedup_customers (customers : list Customers.raw) : list Customers.raw :=
  drop_duplicates Customers.customer_id customers.

Definition missing_email (r : Customers.raw) : bool :=
  PyStr.is_empty (Customers.email r).

Definition placeholder_email (cid : string) : string :=
  ("unknown+" ++ PyStr.lower cid ++ "@fleximart.local")%string.

Definition clean_customer (r : Customers.raw) : Customers.clean :=
  let email :=
    if missing_email r then placeholder_email (Customers.customer_id r)
    else Customers.email r in
  Customers.Row
    (Customers.customer_id r)
    (normalize_spaces (Some (Customers.first_name r)))
    (normalize_spaces (Some (Customers.last_name r)))
    (PyStr.lower email)
    (normalize_phone (Some (Customers.phone r)))
    (normalize_city (Some (Customers.city r)))
    (parse_date (Some (Customers.registration_date r))).

Definition clean_customers (customers : list Customers.raw) : list Customers.clean :=
  clean_customer <$> dedup_customers customers.

(** *** Products *)

Definition dedup_products (products : list Products.raw) : list Products.raw :=
  drop_duplicates Products.product_id products.

Definition canonical_product (r : Products.raw) : Products.raw :=
  Products.Row
    (Products.product_id r)
    (normalize_spaces (Some (Products.product_name r)))
    (normalize_category (Some (Products.category r)))
    (Products.price r)
    (Products.stock_quantity r).

Definition with_price_num (r : Products.raw) : Products.priced :=
  Products.Priced r (to_numeric (Products.price r)).

(** The frame on which [medians] is computed. *)
Definition priced_products (products : list Products.raw) : list Products.priced :=
  (with_price_num ∘ canonical_product) <$> dedup_products products.

(** [products.groupby("category")["price_num"].median()] looked up at one
    category: the median of the parsed prices of that group. *)
Definition peer_prices (frame : list Products.priced) (cat : string) : list Q :=
  omap Products.price_parsed
       (filter (fun p => Products.category (Products.priced_row p) = cat) frame).

Definition medians (frame : list Products.priced) (cat : string) : option Q :=
  median (peer_prices frame cat).

Definition impute_price (frame : list Products.priced) (row : Products.priced)
  : option Q :=
  match Products.price_parsed row with
  | None => medians frame (Products.category (Products.priced_row row))
  | Some p => Some p
  end.

Definition stock_of (r : Products.raw) : Z :=
  astype_int (fillna0 (to_numeric (Products.stock_quantity r))).

(** [apply(impute_price)], [dropna(subset=["price_num"])] and the stock
    column, for one row: [None] when the row is dropped. *)
Definition clean_product (frame : list Products.priced) (row : Products.priced)
  : option Products.clean :=
  p ← impute_price frame row;
  Some (Products.Clean (Products.priced_row row) p
                       (stock_of (Products.priced_row row))).

Definition clean_products (products : list Products.raw) : list Products.clean :=
  let frame := priced_products products in
  omap (clean_product frame) frame.

Definition missing_price (row : Products.priced) : bool :=
  isna (Products.price_parsed row).

Definition missing_stock (c : Products.clean) : bool :=
  isna (to_numeric (Products.stock_quantity (Products.columns c))).

(** *** Sales *)

Definition dedup_sales (sales : list Sales.raw) : list Sales.raw :=
  drop_duplicates Sales.transaction_id sales.

Definition missing_cust (r : Sales.raw) : bool :=
  PyStr.is_empty (Sales.customer_id r).

Definition missing_prod (r : Sales.raw) : bool :=
  PyStr.is_empty (Sales.product_id r).

Definition quantity_of (r : Sales.raw) : Z :=
  astype_int (fillna0 (to_numeric (Sales.quantity r))).

Definition positive_quantity (r : Sales.raw) : bool := 0 <? quantity_of r.

Definition missing_unit_price (r : Sales.raw) : bool :=
  isna (to_numeric (Sales.unit_price r)).

Definition invalid_date (r : Sales.raw) : bool :=
  isna (parse_date (Some (Sales.transaction_date r))).

(** The successive frames bound to [sales]. *)
Definition sales_with_customer (sales : list Sales.raw) : list Sales.raw :=
  filter (fun r => missing_cust r = false) (dedup_sales sales).

Definition sales_with_product (sales : list Sales.raw) : list Sales.raw :=
  filter (fun r => missing_prod r = false) (sales_with_customer sales).

Definition sales_with_quantity (sales : list Sales.raw) : list Sales.raw :=
  filter (fun r => positive_quantity r = true) (sales_with_product sales).

Definition sales_with_price (sales : list Sales.raw) : list Sales.raw :=
  filter (fun r => missing_unit_price r = false) (sales_with_quantity sales).

Definition sales_with_date (sales : list Sales.raw) : list Sales.raw :=
  filter (fun r => invalid_date r = false) (sales_with_price sales).

(** One row of the last frame with its added columns. *)
Definition clean_sale (r : Sales.raw) : option Sales.clean :=
  p ← to_numeric (Sales.unit_price r);
  d ← parse_date (Some (Sales.transaction_date r));
  Some (Sales.Clean r (quantity_of r) p d).

Definition clean_sales (sales : list Sales.raw) : list Sales.clean :=
  omap clean_sale (sales_with_date sales).

(** *** Integrity filter *)

Definition valid_customer_ids (customers : list Customers.clean) : gset string :=
  list_to_set (Customers.customer_id <$> customers).

Definition valid_product_ids (products : list Products.clean) : gset string :=
  list_to_set ((Products.product_id ∘ Products.columns) <$> products).

Definition integrity_filter (customers : list Customers.clean)
    (products : list Products.clean) (sales : list Sales.clean)
  : list Sales.clean :=
  filter (fun r => Sales.product_id (Sales.columns r) ∈ valid_product_ids products)
    (filter (fun r => Sales.customer_id (Sales.columns r)
                      ∈ valid_customer_ids customers) sales).

End Transform.

(** ** The relational store

    A table is the list of its rows, each with its primary key, and the
    next AUTO_INCREMENT value.  A connection holds the committed state and
    the working state of the open transaction.  [TRUNCATE] is modelled as a
    statement of the open transaction, made durable by the [commit] that
    ends [truncate_tables]. *)
Module DB.

Record customer := Customer {
  first_name : string; last_name : string; email : string;
  phone : option string; city : string; registration_date : option date }.

Record product := Product {
  product_name : string; category : string; price : Decimal2;
  stock_quantity : Z }.

Record order := Order {
  customer_id : Z; order_date : date; total_amount : Decimal2;
  status : string }.

Record order_item := OrderItem {
  order_id : Z; product_id : Z; quantity : Z; unit_price : Decimal2;
  subtotal : Decimal2 }.

Record table (A : Type) := Table { rows : list (Z * A); auto_increment : Z }.
Arguments Table {A}.
Arguments rows {A}.
Arguments auto_increment {A}.

Definition truncate {A} : table A := Table [] 1.

(** An INSERT: the new table and [cursor.lastrowid]. *)
Definition insert {A} (t : table A) (a : A) : Z * table A :=
  (auto_increment t,
   Table (rows t ++ [(auto_increment t, a)]) (auto_increment t + 1)).

Record store := Store {
  customers : table customer; products : table product;
  orders : table order; order_items : table order_item }.

Definition empty : store := Store truncate truncate truncate truncate.

Inductive stmt :=
| SetForeignKeyChecks (on : bool)
| TruncateOrderItems | TruncateOrders | TruncateProducts | TruncateCustomers
| InsertCustomer (c : customer)
| InsertProduct (p : product)
| InsertOrder (o : order)
| InsertOrderItem (i : order_item)
| Commit.

(** The effect of a statement that succeeds, with [lastrowid]. *)
Definition apply (s : stmt) (db : store) : Z * store :=
  let 'Store c p o i := db in
  match s with
  | SetForeignKeyChecks _ | Commit => (0, db)
  | TruncateOrderItems => (0, Store c p o truncate)
  | TruncateOrders => (0, Store c p truncate i)
  | TruncateProducts => (0, Store c truncate o i)
  | TruncateCustomers => (0, Store truncate p o i)
  | InsertCustomer x => let '(k, c') := insert c x in (k, Store c' p o i)
  | InsertProduct x => let '(k, p') := insert p x in (k, Store c p' o i)
  | InsertOrder x => let '(k, o') := insert o x in (k, Store c p o' i)
  | InsertOrderItem x => let '(k, i') := insert i x in (k, Store c p o i')
  end.

Record conn := Conn {
  committed : store; working : store; executed : nat; closed : bool }.

(** [get_conn(cfg, use_db=True)] on a server holding [db]. *)
Definition connect (db : store) : conn := Conn db db 0 false.

Definition rollback (c : conn) : conn :=
  Conn (committed c) (committed c) (executed c) (closed c).

(** Closing discards whatever is not committed. *)
Definition close (c : conn) : conn :=
  Conn (committed c) (committed c) (executed c) true.

Inductive exn := DatabaseError (statement_index : nat) (s : stmt).

Inductive result (A : Type) := Ok (a : A) | Raised (e : exn).
Arguments Ok {A}.
Arguments Raised {A}.

(** Computations on a connection that may raise. *)
Definition M (A : Type) : Type := conn -> result A * conn.

Definition ret {A} (a : A) : M A := fun c => (Ok a, c).

Definition bind {A B} (m : M A) (k : A -> M B) : M B :=
  fun c =>
    match m c with
    | (Ok a, c') => k a c'
    | (Raised e, c') => (Raised e, c')
    end.

End DB.

#[global] Instance DB_M_ret : MRet DB.M := @DB.ret.
#[global] Instance DB_M_bind : MBind DB.M := fun A B k m => DB.bind m k.

(** ** Load *)

Section Load.

(** Which statements the server rejects (constraint violation, lost
    connection, ...): it may depend on the position of the statement in
    the run, on the statement and on the working state. *)
Variable db_fails : nat -> DB.stmt -> DB.store -> bool.

Definition step (c : DB.conn) (w : DB.store) (committed : DB.store) : DB.conn :=
  DB.Conn committed w (S (DB.executed c)) (DB.closed c).

(** [cur.execute(...)], returning [cur.lastrowid]. *)
Definition execute (s : DB.stmt) : DB.M Z :=
  fun c =>
    if db_fails (DB.executed c) s (DB.working c)
    then (DB.Raised (DB.DatabaseError (DB.executed c) s),
          step c (DB.working c) (DB.committed c))
    else
      let '(k, w) := DB.apply s (DB.working c) in
      (DB.Ok k, step c w (DB.committed c)).

(** [conn.commit()] *)
Definition commit : DB.M unit :=
  fun c =>
    if db_fails (DB.executed c) DB.Commit (DB.working c)
    then (DB.Raised (DB.DatabaseError (DB.executed c) DB.Commit),
          step c (DB.working c) (DB.committed c))
    else (DB.Ok (), step c (DB.working c) (DB.working c)).

Definition truncate_tables : DB.M unit :=
  execute (DB.SetForeignKeyChecks false);;
  execute DB.TruncateOrderItems;;
  execute DB.TruncateOrders;;
  execute DB.TruncateProducts;;
  execute DB.TruncateCustomers;;
  execute (DB.SetForeignKeyChecks true);;
  commit.

Definition customer_values (r : Customers.clean) : DB.customer :=
  DB.Customer (Customers.first_name r) (Customers.last_name r)
              (Customers.email r) (Customers.phone r) (Customers.city r)
              (Customers.registration_date r).

Definition product_values (r : Products.clean) : DB.product :=
  DB.Product (Products.product_name (Products.columns r))
             (Products.category (Products.columns r))
             (to_decimal_2 (Products.price_num r))
             (Products.stock_num r).

(** The loop over [customers.iterrows()], threading [cust_map]. *)
Fixpoint insert_customers (customers : list Customers.clean)
    (cust_map : gmap string Z) : DB.M (gmap string Z) :=
  match customers with
  | [] => mret cust_map
  | r :: rest =>
      lastrowid ← execute (DB.InsertCustomer (customer_values r));
      insert_customers rest (<[Customers.customer_id r := lastrowid]> cust_map)
  end.

(** The loop over [products.iterrows()], threading [prod_map]. *)
Fixpoint insert_products (products : list Products.clean)
    (prod_map : gmap string Z) : DB.M (gmap string Z) :=
  match products with
  | [] => mret prod_map
  | r :: rest =>
      lastrowid ← execute (DB.InsertProduct (product_values r));
      insert_products rest
        (<[Products.product_id (Products.columns r) := lastrowid]> prod_map)
  end.

(** [normalize_spaces(r.get("status", "Pending")).title() or "Pending"] *)
Definition order_status (r : Sales.clean) : string :=
  let s := PyStr.title (normalize_spaces (Some (Sales.status (Sales.columns r)))) in
  if PyStr.is_empty s then "Pending"%string else s.

(** [not pk] for the result of [dict.get]: missing, or zero. *)
Definition falsy (pk : option Z) : bool :=
  match pk with None => true | Some k => k =? 0 end.

Definition unit_price_of (r : Sales.clean) : Decimal2 :=
  to_decimal_2 (Sales.unit_price_num r).

Definition subtotal_of (r : Sales.clean) : Decimal2 :=
  to_decimal_2 (Decimal2_value (unit_price_of r)
                * inject_Z (Sales.quantity_num r)).

(** The loop over [sales.iterrows()], threading the two counters. *)
Fixpoint insert_sales (cust_map prod_map : gmap string Z)
    (sales : list Sales.clean) (orders_loaded items_loaded : nat)
  : DB.M (nat * nat) :=
  match sales with
  | [] => mret (orders_loaded, items_loaded)
  | r :: rest =>
      let cust_pk := cust_map !! Sales.customer_id (Sales.columns r) in
      let prod_pk := prod_map !! Sales.product_id (Sales.columns r) in
      if falsy cust_pk || falsy prod_pk
      then insert_sales cust_map prod_map rest orders_loaded items_loaded
      else
        let qty := Sales.quantity_num r in
        let unit_price := unit_price_of r in
        let subtotal := subtotal_of r in
        order_id ← execute (DB.InsertOrder
          (DB.Order (default 0 cust_pk) (Sales.transaction_date_parsed r)
                    subtotal (order_status r)));
        execute (DB.InsertOrderItem
          (DB.OrderItem order_id (default 0 prod_pk) qty unit_price subtotal));;
        insert_sales cust_map prod_map rest (S orders_loaded) (S items_loaded)
  end.

(** The four loaded counts written into [report]. *)
Record loaded := Loaded {
  n_customers : nat; n_products : nat; n_orders : nat; n_order_items : nat }.

(** The body of the [try] block. *)
Definition load_body (customers : list Customers.clean)
    (products : list Products.clean) (sales : list Sales.clean)
  : DB.M loaded :=
  truncate_tables;;
  cust_map ← insert_customers customers ∅;
  prod_map ← insert_products products ∅;
  counts ← insert_sales cust_map prod_map sales 0 0;
  commit;;
  mret (Loaded (size cust_map) (size prod_map) counts.1 counts.2).

(** [try: ... except Exception: conn.rollback(); raise finally: conn.close()] *)
Definition try_load {A} (body : DB.M A) : DB.M A :=
  fun c =>
    match body c with
    | (DB.Ok a, c') => (DB.Ok a, DB.close c')
    | (DB.Raised e, c') => (DB.Raised e, DB.close (DB.rollback c'))
    end.

Definition load (customers : list Customers.clean)
    (products : list Products.clean) (sales : list Sales.clean)
  : DB.M loaded :=
  try_load (load_body customers products sales).


End Load.

(** ** The pipeline *)

(** What a run leaves behind: the exception that escaped [run_etl], if
    any; the connection, whose [committed] state is what the store
    holds; and the report written to [data_quality_report.txt], if it was
    written. *)
Record run := Run {
  raised : option DB.exn; connection : DB.conn; report_file : option Report }.

Section Pipeline.

Variable to_numeric : string -> option Q.
Variable to_datetime_ymd : string -> option date.
Variable to_datetime : bool -> string -> option date.
Variable db_fails : nat -> DB.stmt -> DB.store -> bool.

(** The frames handed to the load step. *)
Definition cleaned_customers (customers : list Customers.csv) : list Customers.clean :=
  clean_customers to_datetime_ymd to_datetime
    (Customers.applymap normalize_spaces <$> customers).

Definition cleaned_products (products : list Products.csv) : list Products.clean :=
  clean_products to_numeric (Products.applymap normalize_spaces <$> products).

Definition cleaned_sales (customers : list Customers.csv)
    (products : list Products.csv) (sales : list Sales.csv) : list Sales.clean :=
  integrity_filter (cleaned_customers customers) (cleaned_products products)
    (clean_sales to_numeric to_datetime_ymd to_datetime
       (Sales.applymap normalize_spaces <$> sales)).

(** [report] as it stands when the load step starts. *)
Definition report_before_load (customers : list Customers.csv)
    (products : list Products.csv) (sales : list Sales.csv) : Report :=
  let customers := Customers.applymap normalize_spaces <$> customers in
  let products := Products.applymap normalize_spaces <$> products in
  let sales := Sales.applymap normalize_spaces <$> sales in
  {| customers_raw := length customers;
     products_raw := length products;
     sales_raw := length sales;
     customers_dupes_removed :=
       length customers - length (dedup_customers customers);
     products_dupes_removed :=
       length products - length (dedup_products products);
     sales_dupes_removed := length sales - length (dedup_sales sales);
     customers_missing_email_filled :=
       mask_sum missing_email (dedup_customers customers);
     products_missing_price_imputed :=
       mask_sum missing_price (priced_products to_numeric products);
     products_missing_stock_filled :=
       mask_sum (missing_stock to_numeric) (clean_products to_numeric products);
     sales_missing_customer_dropped := mask_sum missing_cust (dedup_sales sales);
     sales_missing_product_dropped :=
       mask_sum missing_prod (sales_with_customer sales);
     sales_invalid_date_dropped :=
       mask_sum (invalid_date to_datetime_ymd to_datetime)
                (sales_with_price to_numeric sales);
     customers_loaded := 0; products_loaded := 0;
     orders_loaded := 0; order_items_loaded := 0 |}.

Definition with_loaded (r : Report) (l : loaded) : Report :=
  {| customers_raw := customers_raw r;
     products_raw := products_raw r;
     sales_raw := sales_raw r;
     customers_dupes_removed := customers_dupes_removed r;
     products_dupes_removed := products_dupes_removed r;
     sales_dupes_removed := sales_dupes_removed r;
     customers_missing_email_filled := customers_missing_email_filled r;
     products_missing_price_imputed := products_missing_price_imputed r;
     products_missing_stock_filled := products_missing_stock_filled r;
     sales_missing_customer_dropped := sales_missing_customer_dropped r;
     sales_missing_product_dropped := sales_missing_product_dropped r;
     sales_invalid_date_dropped := sales_invalid_date_dropped r;
     customers_loaded := n_customers l;
     products_loaded := n_products l;
     orders_loaded := n_orders l;
     order_items_loaded := n_order_items l |}.

(** [run_etl] on the three frames as read, against a server holding [db]. *)
Definition run_etl (customers : list Customers.csv)
    (products : list Products.csv) (sales : list Sales.csv) (db : DB.store)
  : run :=
  let report := report_before_load customers products sales in
  match load db_fails (cleaned_customers customers) (cleaned_products products)
             (cleaned_sales customers products sales) (DB.connect db) with
  | (DB.Ok counts, c) => Run None c (Some (with_loaded report counts))
  | (DB.Raised e, c) => Run (Some e) c None
  end.

End Pipeline.

(** ** Auxiliary notions used to state the properties *)

Definition statement_index (e : DB.exn) : nat :=
  match e with DB.DatabaseError i _ => i end.


(** The rows that a run of INSERTs adds to a table, numbered from [a]. *)
Fixpoint number_from {A} (a : Z) (l : list A) : list (Z * A) :=
  match l with
  | [] => []
  | x :: l' => (a, x) :: number_from (a + 1) l'
  end.

Definition insert_rows {A} (t : DB.table A) (l : list A) : DB.table A :=
  DB.Table (DB.rows t ++ number_from (DB.auto_increment t) l)
           (DB.auto_increment t + Z.of_nat (length l)).

(** The dictionary built by assigning the keys, in order, the numbers
    from [a]. *)
Fixpoint key_map (a : Z) (keys : list string) (m : gmap string Z)
  : gmap string Z :=
  match keys with
  | [] => m
  | k :: ks => key_map (a + 1) ks (<[k := a]> m)
  end.

(** The order and the order item made from a sales row. *)
Definition order_of (cust_map : gmap string Z) (r : Sales.clean) : DB.order :=
  DB.Order (default 0 (cust_map !! Sales.customer_id (Sales.columns r)))
           (Sales.transaction_date_parsed r) (subtotal_of r) (order_status r).

Definition item_of (prod_map : gmap string Z) (order_id : Z) (r : Sales.clean)
  : DB.order_item :=
  DB.OrderItem order_id
               (default 0 (prod_map !! Sales.product_id (Sales.columns r)))
               (Sales.quantity_num r) (unit_price_of r) (subtotal_of r).

(** The items of consecutive orders, the first of which has key [a]. *)
Fixpoint items_from (prod_map : gmap string Z) (a : Z) (l : list Sales.clean)
  : list DB.order_item :=
  match l with
  | [] => []
  | r :: l' => item_of prod_map a r :: items_from prod_map (a + 1) l'
  end.

(** The rows that pass the test [if not cust_pk or not prod_pk]. *)
Definition loadable (cust_map prod_map : gmap string Z) (r : Sales.clean) : bool :=
  negb (falsy (cust_map !! Sales.customer_id (Sales.columns r))
        || falsy (prod_map !! Sales.product_id (Sales.columns r))).

(** The rows dropped without a counter in [report]. *)
Definition products_without_price (products : list Products.priced) : nat :=
  mask_sum (fun row => isna (impute_price products row)) products.

Definition sales_quantity_dropped (to_numeric : string -> option Q)
    (sales : list Sales.raw) : nat :=
  mask_sum (fun r => negb (positive_quantity to_numeric r))
           (sales_with_product sales).

Definition sales_unit_price_dropped (to_numeric : string -> option Q)
    (sales : list Sales.raw) : nat :=
  mask_sum (missing_unit_price to_numeric) (sales_with_quantity to_numeric sales).

Definition sales_integrity_dropped (customers : list Customers.clean)
    (products : list Products.clean) (sales : list Sales.clean) : nat :=
  mask_sum
    (fun r => negb (bool_decide (Sales.customer_id (Sales.columns r)
                                 ∈ valid_customer_ids customers)
                    && bool_decide (Sales.product_id (Sales.columns r)
                                    ∈ valid_product_ids products)))
    sales.

(** ** Data of the worked examples *)

(** Three products of one category, the last without a price. *)
Definition fashion_products : list Products.csv :=
  [ Products.Row (Some "P001") (Some "Shirt") (Some "fashion")
                 (Some "100.00") (Some "5");
    Products.Row (Some "P002") (Some "Jeans") (Some " FASHION ")
                 (Some "300.00") (Some "2");
    Products.Row (Some "P003") (Some "Cap") (Some "Fashion") None (Some "1") ]%string.





(** The data set of the end-to-end example: three customers (one without
    email), two products (one without price, in the category of a product
    priced 50.00) and four sales rows (one for an unknown product, one
    with quantity 0). *)
Definition example_customers : list Customers.csv :=
  [ Customers.Row (Some "C001") (Some "Ann") (Some "Lee") None
                  (Some "9876543210") (Some "mumbai") (Some "2024-01-05");
    Customers.Row (Some "C002") (Some "Bob") (Some "Ray") (Some "bob@x.com")
                  (Some "+91-9988776655") (Some "new delhi") (Some "15/01/2024");
    Customers.Row (Some "C003") (Some "Cy") (Some "Zed") (Some "cy@x.com")
                  (Some "09988112233") (Some "pune") (Some "03-04-2024") ]%string.

Definition example_products : list Products.csv :=
  [ Products.Row (Some "P001") (Some "Shirt") (Some "fashion") (Some "50.00")
                 (Some "10");
    Products.Row (Some "P002") (Some "Jeans") (Some "Fashion") None
                 (Some "4") ]%string.

Definition example_sales : list Sales.csv :=
  [ Sales.Row (Some "T001") (Some "C001") (Some "P001") (Some "2")
              (Some "50.00") (Some "2024-02-01") (Some "completed");
    Sales.Row (Some "T002") (Some "C002") (Some "P002") (Some "1")
              (Some "50.00") (Some "20/02/2024") (Some "");
    Sales.Row (Some "T003") (Some "C003") (Some "P999") (Some "1")
              (Some "5.00") (Some "2024-02-03") (Some "pending");
    Sales.Row (Some "T004") (Some "C001") (Some "P001") (Some "0")
              (Some "50.00") (Some "2024-02-04") (Some "pending") ]%string.

Definition example_run : run :=
  run_etl PandasNumeric.to_numeric Pandas.to_datetime_ymd Pandas.to_datetime
          (fun _ _ _ => false) example_customers example_products example_sales
          DB.empty.

(** ** The operations as the specification words them *)

(** [normalizePhone]: extract the digit characters; strip a "91" prefix
    from 12 digits; strip a leading "0" from 11 digits; keep the last 10
    if more than 10 remain; null unless exactly 10 remain. *)
Definition normalizePhone (text : string) : option string :=
  let digits := digits_only text in
  let digits :=
    if (String.length digits =? 12)%nat && PyStr.startswith "91" digits
    then PyStr.drop 2 digits else digits in
  let digits :=
    if (String.length digits =? 11)%nat && PyStr.startswith "0" digits
    then PyStr.drop 1 digits else digits in
  let digits :=
    if (10 <? String.length digits)%nat then PyStr.suffix 10 digits else digits in
  if (String.length digits =? 10)%nat then Some ("+91-" ++ digits)%string
  else None.

(** ** The warehouse fixture generator ([generate_warehouse_data.py])

    [random.choice] is taken as a parameter: the [k]-th call of the run
    picks the element at position [draw k] modulo the length of its
    population, and raises on an empty population.  [date + timedelta] is
    modelled by counting days forward on the calendar. *)
Module Warehouse.

(** [str(s).replace("'", "''")] *)
Fixpoint sql_escape (s : string) : string :=
  match s with
  | EmptyString => EmptyString
  | String c s' =>
      if Ascii.eqb c "'" then String "'" (String "'" (sql_escape s'))
      else String c (sql_escape s')
  end.

Definition sql_str (s : string) : string :=
  ("'" ++ sql_escape s ++ "'")%string.

(** The decimal digit of a number below ten. *)
Definition digit_char (n : Z) : ascii := ascii_of_nat (48 + Z.to_nat n).

(** [%02d] and [%04d] on a number that fits. *)
Definition two_digits (n : Z) : string :=
  String (digit_char (n / 10)) (String (digit_char (n mod 10)) EmptyString).

Definition four_digits (n : Z) : string :=
  (two_digits (n / 100) ++ two_digits (n mod 100))%string.

(** [d.strftime("%Y%m%d")], for a year of four digits. *)
Definition strftime_Ymd (d : date) : string :=
  (four_digits (year d) ++ two_digits (month d) ++ two_digits (day d))%string.

(** [d.isoformat()] *)
Definition isoformat (d : date) : string :=
  (four_digits (year d) ++ "-" ++ two_digits (month d) ++ "-"
   ++ two_digits (day d))%string.

Definition date_key (d : date) : option Z := int (strftime_Ymd d).

(** [str(n)] for an integer. *)
Definition str_of_int (n : Z) : string := NilZero.string_of_int (Z.to_int n).

Definition quarter (m : Z) : string :=
  ("Q" ++ str_of_int ((m - 1) / 3 + 1))%string.

(** [date.toordinal] and [date.weekday] (Monday is 0). *)
Definition days_before_year (y : Z) : Z :=
  let y := y - 1 in y * 365 + y / 4 - y / 100 + y / 400.

Fixpoint days_before_month_from (y : Z) (m : Z) (n : nat) : Z :=
  match n with
  | O => 0
  | S n' => Pandas.days_in_month y m + days_before_month_from y (m + 1) n'
  end.

Definition days_before_month (y m : Z) : Z :=
  days_before_month_from y 1 (Z.to_nat (m - 1)).

Definition toordinal (d : date) : Z :=
  days_before_year (year d) + days_before_month (year d) (month d) + day d.

Definition weekday (d : date) : Z := (toordinal d + 6) mod 7.

(** [d.strftime("%A")] and [d.strftime("%B")] *)
Definition day_name (d : date) : string :=
  nth (Z.to_nat (weekday d))
      ["Monday"; "Tuesday"; "Wednesday"; "Thursday"; "Friday"; "Saturday";
       "Sunday"]%string EmptyString.

Definition month_name_of (d : date) : string :=
  nth (Z.to_nat (month d - 1))
      ["January"; "February"; "March"; "April"; "May"; "June"; "July";
       "August"; "September"; "October"; "November"; "December"]%string
      EmptyString.

(** [d + timedelta(days=1)] and [d + timedelta(days=n)] *)
Definition tomorrow (d : date) : date :=
  if day d <? Pandas.days_in_month (year d) (month d)
  then Date (year d) (month d) (day d + 1)
  else if month d <? 12 then Date (year d) (month d + 1) 1
  else Date (year d + 1) 1 1.

Definition add_days (d : date) (n : nat) : date := Nat.iter n tomorrow d.

(** A row of [dim_date_rows]. *)
Record dim_date := DimDate {
  dd_date_key : Z; full_date : string; day_of_week : string;
  day_of_month : Z; dd_month : Z; month_name : string; dd_quarter : string;
  dd_year : Z; is_weekend : Z }.

Definition dim_date_row (d : date) : option dim_date :=
  k ← date_key d;
  Some (DimDate k (isoformat d) (day_name d) (day d) (month d)
                (month_name_of d) (quarter (month d)) (year d)
                (if 5 <=? weekday d then 1 else 0)).

Definition start : date := Date 2024 1 15.

Definition dates : list date := (fun i => add_days start i) <$> seq 0 30.

Definition dim_date_rows_of (dates : list date) : option (list dim_date) :=
  mapM dim_date_row dates.

(** The tuples of [products] and [customers]. *)
Record product := Product {
  product_id : string; product_name : string; category : string;
  subcategory : string; price : Q }.

Record customer := Customer {
  customer_id : string; customer_name : string; city : string;
  state : string; customer_segment : string }.

Definition products : list product :=
  [ Product "P001" "Samsung Galaxy S21" "Electronics" "Smartphones" 45999;
    Product "P003" "Apple MacBook Pro" "Electronics" "Laptops" 99999;
    Product "P005" "Sony Headphones" "Electronics" "Audio" 1999;
    Product "P007" "HP Laptop" "Electronics" "Laptops" 52999;
    Product "P012" "Dell Monitor 24inch" "Electronics" "Monitors" 12999;
    Product "P014" "iPhone 13" "Electronics" "Smartphones" 69999;
    Product "P002" "Nike Running Shoes" "Fashion" "Footwear" 3499;
    Product "P004" "Levi's Jeans" "Fashion" "Clothing" 2999;
    Product "P008" "Adidas T-Shirt" "Fashion" "Clothing" 1299;
    Product "P011" "Puma Sneakers" "Fashion" "Footwear" 4599;
    Product "P013" "Woodland Shoes" "Fashion" "Footwear" 5499;
    Product "P006" "Organic Almonds" "Groceries" "Dry Fruits" 899;
    Product "P009" "Basmati Rice 5kg" "Groceries" "Staples" 650;
    Product "P015" "Organic Honey 500g" "Groceries" "Condiments" 450;
    Product "P018" "Masoor Dal 1kg" "Groceries" "Staples" 120 ]%string.

Definition customers : list customer :=
  [ Customer "C001" "Rahul Sharma" "Bangalore" "Karnataka" "Retail";
    Customer "C002" "Priya Patel" "Mumbai" "Maharashtra" "Premium";
    Customer "C003" "Amit Kumar" "Delhi" "Delhi" "Retail";
    Customer "C004" "Sneha Reddy" "Hyderabad" "Telangana" "Premium";
    Customer "C005" "Vikram Singh" "Chennai" "Tamil Nadu" "Retail";
    Customer "C006" "Anjali Mehta" "Bangalore" "Karnataka" "Premium";
    Customer "C009" "Karthik Nair" "Kochi" "Kerala" "Retail";
    Customer "C011" "Arjun Rao" "Hyderabad" "Telangana" "Premium";
    Customer "C013" "Suresh Patel" "Mumbai" "Maharashtra" "Retail";
    Customer "C014" "Neha Shah" "Ahmedabad" "Gujarat" "Retail";
    Customer "C017" "Rajesh Kumar" "Delhi" "Delhi" "Premium";
    Customer "C020" "Swati Desai" "Pune" "Maharashtra" "Retail" ]%string.

(** [list(range(1, n + 1))] *)
Definition keys_upto (n : nat) : list Z := (fun i => Z.of_nat i + 1) <$> seq 0 n.

(** [seq[i]] with Python's negative indices; [None] is IndexError. *)
Definition getitem {A} (l : list A) (i : Z) : option A :=
  if i <? 0
  then (if i + Z.of_nat (length l) <? 0 then None
        else l !! Z.to_nat (i + Z.of_nat (length l)))
  else l !! Z.to_nat i.

(** [weighted_date_keys]: the key of a weekend date three times, of any
    other date once. *)
Definition weighted_date_keys (rows : list dim_date) : list Z :=
  rows ≫= (fun r => replicate (if is_weekend r =? 1 then 3%nat else 1%nat)
                              (dd_date_key r)).

(** Nearest integer, ties to the even one, and [round(x, 2)]. *)
Definition round_half_even (q : Q) : Z :=
  let n := Qnum q in
  let d := Z.pos (Qden q) in
  let f := n / d in
  let r := 2 * (n - f * d) in
  if r <? d then f
  else if d <? r then f + 1
  else if Z.even f then f else f + 1.

Definition round2 (x : Q) : Q := round_half_even (x * 100) # 100.

(** A tuple of [facts]. *)
Record fact := Fact {
  date_key_of : Z; product_key : Z; customer_key : Z; quantity_sold : Z;
  unit_price : Q; discount_amount : Q; total_amount : Q }.

Section Facts.

Variable draw : nat -> nat.

(** The [k]-th call of [random.choice]; [None] is IndexError. *)
Definition choice {A} (k : nat) (population : list A) : option A :=
  match population with
  | [] => None
  | _ => population !! (draw k mod length population)%nat
  end.

Variable dim_date_rows : list dim_date.
Variable products : list product.
Variable customers : list customer.

(** [next(r["is_weekend"] for r in dim_date_rows if r["date_key"] == dk)];
    [None] is StopIteration. *)
Definition is_weekend_of (dk : Z) : option Z :=
  is_weekend <$> head (filter (fun r => dd_date_key r = dk) dim_date_rows).

(** The body of the loop, at its [i]-th turn: five draws. *)
Definition make_fact (i : nat) : option fact :=
  dk ← choice (5 * i) (weighted_date_keys dim_date_rows);
  pk ← choice (5 * i + 1) (keys_upto (length products));
  ck ← choice (5 * i + 2) (keys_upto (length customers));
  p ← getitem products (pk - 1);
  let unit_price := price p in
  qty ← choice (5 * i + 3) [1; 1; 1; 2; 2; 3; 4];
  weekend ← is_weekend_of dk;
  disc_rate ← (if weekend =? 0
               then choice (5 * i + 4) [0; 0; 5 # 100]%Q
               else choice (5 * i + 4) [0; 0; 5 # 100; 10 # 100]%Q);
  let discount := round2 (inject_Z qty * unit_price * disc_rate) in
  let total := round2 (inject_Z qty * unit_price - discount) in
  Some (Fact dk pk ck qty unit_price discount total).

Definition facts (n : nat) : option (list fact) := mapM make_fact (seq 0 n).

End Facts.

End Warehouse.

(** What one turn of the fact loop is to append: keys that refer to the
    dimension lists, the price of the product, a quantity and a discount
    rate from the lists drawn from. *)
Definition fact_ok (rows : list Warehouse.dim_date)
    (products : list Warehouse.product) (customers : list Warehouse.customer)
    (f : Warehouse.fact) : Prop :=
  (exists r, r ∈ rows /\ Warehouse.dd_date_key r = Warehouse.date_key_of f)
  /\ 1 <= Warehouse.product_key f <= Z.of_nat (length products)
  /\ 1 <= Warehouse.customer_key f <= Z.of_nat (length customers)
  /\ (exists p, products !! Z.to_nat (Warehouse.product_key f - 1) = Some p
                /\ Warehouse.unit_price f = Warehouse.price p)
  /\ 1 <= Warehouse.quantity_sold f <= 4
  /\ exists rate,
       rate ∈ [0; 5 # 100; 10 # 100]%Q
       /\ (rate = (10 # 100)%Q ->
           exists w, Warehouse.is_weekend_of rows (Warehouse.date_key_of f)
                     = Some w /\ w <> 0)
       /\ Warehouse.discount_amount f
          = Warehouse.round2 (inject_Z (Warehouse.quantity_sold f)
                              * Warehouse.unit_price f * rate)
       /\ Warehouse.total_amount f
          = Warehouse.round2 (inject_Z (Warehouse.quantity_sold f)
                              * Warehouse.unit_price f
                              - Warehouse.discount_amount f).

(** * Properties *)

(** ** Strings *)

Lemma is_digit_not_space c : PyStr.is_digit c = true -> PyStr.is_space c = false.
Proof.
  unfold PyStr.is_digit, PyStr.is_space, PyStr.code.
  intros H. apply andb_true_iff in H as [Hlo Hhi].
  apply Nat.leb_le in Hlo. apply Nat.leb_le in Hhi.
  apply orb_false_iff; split; apply andb_false_iff.
  - right. apply Nat.leb_gt. lia.
  - right. apply Nat.leb_gt. lia.
Qed.

Lemma filter_all p s : PyStr.all p s = true -> PyStr.filter p s = s.
Proof.
  induction s as [|c s IH]; simpl; [done|].
  intros [Hc Hs]%andb_true_iff. rewrite Hc. by rewrite IH.
Qed.

Lemma filter_none p q s :
  (forall c, p c = true -> q c = false) ->
  PyStr.all p s = true -> PyStr.filter q s = EmptyString.
Proof.
  intros Hpq. induction s as [|c s IH]; simpl; [done|].
  intros [Hc Hs]%andb_true_iff. rewrite (Hpq _ Hc). auto.
Qed.

Lemma length_drop n s : String.length (PyStr.drop n s) = (String.length s - n)%nat.
Proof.
  revert s. induction n as [|n IH]; intros [|c s]; simpl; try done; lia.
Qed.

Lemma length_suffix n s :
  String.length (PyStr.suffix n s) = Nat.min n (String.length s).
Proof. unfold PyStr.suffix. rewrite length_drop. lia. Qed.

Lemma length_app_string (s t : string) :
  String.length (s ++ t) = (String.length s + String.length t)%nat.
Proof. induction s as [|c s IH]; simpl; [done|]. by rewrite IH. Qed.

Lemma drop_app_string (s t : string) : PyStr.drop (String.length s) (s ++ t) = t.
Proof. induction s as [|c s IH]; simpl; [|done]. by destruct t. Qed.

Lemma suffix_app_string (s t : string) :
  PyStr.suffix (String.length t) (s ++ t) = t.
Proof.
  unfold PyStr.suffix. rewrite length_app_string.
  replace (String.length s + String.length t - String.length t)%nat
    with (String.length s) by lia.
  apply drop_app_string.
Qed.

Lemma rstrip_empty s : PyStr.rstrip s = EmptyString -> PyStr.all PyStr.is_space s = true.
Proof.
  induction s as [|c s IH]; simpl; [done|].
  destruct (PyStr.rstrip s) eqn:E; [|done].
  destruct (PyStr.is_space c); [|done]. intros _. by apply IH.
Qed.

Lemma lstrip_all_space s :
  PyStr.all PyStr.is_space (PyStr.lstrip s) = true ->
  PyStr.all PyStr.is_space s = true.
Proof.
  induction s as [|c s IH]; simpl; [done|].
  destruct (PyStr.is_space c) eqn:E; simpl; [done|]. by rewrite E.
Qed.

Lemma strip_empty s :
  PyStr.is_empty (PyStr.strip s) = true -> PyStr.all PyStr.is_space s = true.
Proof.
  unfold PyStr.strip. intros H. apply lstrip_all_space, rstrip_empty.
  by destruct (PyStr.rstrip (PyStr.lstrip s)).
Qed.

Lemma strip_nonempty c s :
  PyStr.is_space c = false -> PyStr.is_empty (PyStr.strip (String c s)) = false.
Proof.
  intros Hc. unfold PyStr.strip. simpl. rewrite Hc. simpl.
  destruct (PyStr.rstrip s); [by rewrite Hc | done].
Qed.

Lemma blank_has_no_digit s :
  PyStr.is_empty (PyStr.strip s) = true -> digits_only s = EmptyString.
Proof.
  intros H. apply (filter_none PyStr.is_space); [|by apply strip_empty].
  intros c Hc. destruct (PyStr.is_digit c) eqn:E; [|done].
  apply is_digit_not_space in E. congruence.
Qed.

(** ** [normalize_phone] *)

Lemma length_strip_prefixes d :
  String.length (strip_prefixes d) = Nat.min 10 (String.length d).
Proof.
  unfold strip_prefixes.
  destruct ((String.length d =? 12)%nat && PyStr.startswith "91" d);
    [apply length_suffix|].
  destruct ((String.length d =? 11)%nat && PyStr.startswith "0" d);
    [apply length_suffix|].
  destruct (10 <? String.length d)%nat eqn:E; [apply length_suffix|].
  apply Nat.ltb_ge in E. lia.
Qed.

Lemma strip_prefixes_suffix d :
  strip_prefixes d = if (10 <? String.length d)%nat then PyStr.suffix 10 d else d.
Proof.
  unfold strip_prefixes.
  destruct ((String.length d =? 12)%nat && PyStr.startswith "91" d) eqn:E1.
  { apply andb_true_iff in E1 as [E1%Nat.eqb_eq _]. by rewrite E1. }
  destruct ((String.length d =? 11)%nat && PyStr.startswith "0" d) eqn:E2.
  { apply andb_true_iff in E2 as [E2%Nat.eqb_eq _]. by rewrite E2. }
  done.
Qed.

(** The result of [normalize_phone] in terms of the digit characters of
    the input alone. *)
Lemma normalize_phone_digits s :
  normalize_phone (Some s) =
  if (10 <=? String.length (digits_only s))%nat
  then Some ("+91-" ++ PyStr.suffix 10 (digits_only s))%string
  else None.
Proof.
  unfold normalize_phone.
  destruct (PyStr.is_empty (PyStr.strip s)) eqn:Hblank.
  { rewrite (blank_has_no_digit _ Hblank). done. }
  pose proof (length_strip_prefixes (digits_only s)) as Hlen.
  rewrite strip_prefixes_suffix in Hlen |- *.
  destruct (10 <=? String.length (digits_only s))%nat eqn:Hge.
  - apply Nat.leb_le in Hge.
    destruct (10 <? String.length (digits_only s))%nat eqn:Hgt.
    + rewrite Hlen. by rewrite Nat.min_l by lia.
    + apply Nat.ltb_ge in Hgt.
      assert (String.length (digits_only s) = 10%nat) as E by lia.
      rewrite E. simpl. unfold PyStr.suffix. rewrite E. done.
  - apply Nat.leb_gt in Hge.
    destruct (10 <? String.length (digits_only s))%nat eqn:Hgt.
    + apply Nat.ltb_lt in Hgt. lia.
    + destruct (String.length (digits_only s) =? 10)%nat eqn:E; [|done].
      apply Nat.eqb_eq in E. lia.
Qed.

Lemma normalize_phone_refines s : normalize_phone (Some s) = normalizePhone s.
Proof.
  rewrite normalize_phone_digits. unfold normalizePhone.
  set (d := digits_only s). cbv zeta.
  destruct ((String.length d =? 12)%nat && PyStr.startswith "91" d) eqn:E1.
  { apply andb_true_iff in E1 as [E1%Nat.eqb_eq _].
    assert (String.length (PyStr.drop 2 d) = 10%nat) as L
      by (rewrite length_drop; lia).
    rewrite E1. unfold PyStr.suffix at 1. rewrite E1.
    change (12 - 10)%nat with 2%nat.
    set (d1 := PyStr.drop 2 d) in *. clearbody d1.
    rewrite ?L. cbn [Nat.eqb andb]. rewrite ?L.
    change (10 <? 10)%nat with false. cbv iota. rewrite ?L. done. }
  destruct ((String.length d =? 11)%nat && PyStr.startswith "0" d) eqn:E2.
  { apply andb_true_iff in E2 as [E2%Nat.eqb_eq _].
    assert (String.length (PyStr.drop 1 d) = 10%nat) as L
      by (rewrite length_drop; lia).
    rewrite E2. unfold PyStr.suffix at 1. rewrite E2.
    change (11 - 10)%nat with 1%nat.
    set (d1 := PyStr.drop 1 d) in *. clearbody d1.
    rewrite ?L. cbn [Nat.eqb andb]. rewrite ?L.
    change (10 <? 10)%nat with false. cbv iota. rewrite ?L. done. }
  destruct (10 <? String.length d)%nat eqn:E3.
  - apply Nat.ltb_lt in E3. rewrite length_suffix.
    rewrite Nat.min_l by lia. rewrite Nat.eqb_refl.
    destruct (10 <=? String.length d)%nat eqn:E4; [done|].
    apply Nat.leb_gt in E4. lia.
  - apply Nat.ltb_ge in E3.
    destruct (String.length d =? 10)%nat eqn:E4.
    + apply Nat.eqb_eq in E4. unfold PyStr.suffix. rewrite E4. done.
    + apply Nat.eqb_neq in E4.
      destruct (10 <=? String.length d)%nat eqn:E5; [|done].
      apply Nat.leb_le in E5. lia.
Qed.

Lemma all_digits_nonblank d :
  PyStr.all PyStr.is_digit d = true -> String.length d = 10%nat ->
  PyStr.is_empty (PyStr.strip d) = false.
Proof.
  destruct d as [|c d]; [done|]. simpl.
  intros [Hc _]%andb_true_iff _.
  apply strip_nonempty. by apply is_digit_not_space.
Qed.

Lemma normalize_phone_of_digits (s pre d : string) :
  digits_only s = (pre ++ d)%string -> String.length d = 10%nat ->
  normalize_phone (Some s) = Some ("+91-" ++ d)%string.
Proof.
  intros Hs Hlen. rewrite normalize_phone_digits, Hs.
  rewrite length_app_string, Hlen.
  replace (10 <=? String.length pre + 10)%nat with true
    by (symmetry; apply Nat.leb_le; lia).
  rewrite <- Hlen at 1. by rewrite suffix_app_string.
Qed.

(** C4. [normalize_phone] computes what the specification describes
    (digit extraction, the "91" and "0" prefix rules, truncation to the
    last ten digits, null unless ten digits remain), and the four
    variants of one ten-digit number (bare, "+91-"-prefixed, "0"-prefixed,
    "91"-prefixed) all give the same canonical text. *)
Theorem normalize_phone_canonical (s d : string) :
  PyStr.all PyStr.is_digit d = true ->
  String.length d = 10%nat ->
  normalize_phone (Some s) = normalizePhone s
  /\ normalize_phone (Some d) = Some ("+91-" ++ d)%string
  /\ normalize_phone (Some ("+91-" ++ d)%string) = Some ("+91-" ++ d)%string
  /\ normalize_phone (Some ("0" ++ d)%string) = Some ("+91-" ++ d)%string
  /\ normalize_phone (Some ("91" ++ d)%string) = Some ("+91-" ++ d)%string.
Proof.
  intros Hd Hlen. split; [apply normalize_phone_refines|].
  assert (digits_only d = d) as Hdig by (by apply filter_all).
  repeat split.
  - apply (normalize_phone_of_digits _ ""); [exact Hdig | done].
  - apply (normalize_phone_of_digits _ "91"); [|done].
    unfold digits_only in *. simpl.
    change (String.append EmptyString d) with d. by rewrite Hdig.
  - apply (normalize_phone_of_digits _ "0"); [|done].
    unfold digits_only in *. simpl.
    change (String.append EmptyString d) with d. by rewrite Hdig.
  - apply (normalize_phone_of_digits _ "91"); [|done].
    unfold digits_only in *. simpl.
    change (String.append EmptyString d) with d. by rewrite Hdig.
Qed.

Lemma normalize_phone_canonical_witness :
  normalize_phone (Some "09988112233"%string) = Some "+91-9988112233"%string
  /\ normalize_phone (Some "+91-9988112233"%string) = Some "+91-9988112233"%string.
Proof.
  destruct (normalize_phone_canonical "x" "9988112233" eq_refl eq_refl)
    as (_ & _ & H2 & H3 & _).
  split; [exact H3 | exact H2].
Defined.



(** ** Deduplication *)

Section DropDuplicatesFacts.
Context {A : Type} (key : A -> string).

Lemma drop_duplicates_from_unseen seen l r :
  r ∈ drop_duplicates_from key seen l -> key r ∉ seen.
Proof.
  revert seen. induction l as [|x l IH]; intros seen; simpl.
  - by intros ?%elem_of_nil.
  - case_bool_decide as Hx.
    + apply IH.
    + intros [->|Hin]%elem_of_cons; [done|].
      apply IH in Hin. set_solver.
Qed.

Lemma drop_duplicates_from_NoDup seen l :
  NoDup (key <$> drop_duplicates_from key seen l).
Proof.
  revert seen. induction l as [|x l IH]; intros seen; simpl.
  - constructor.
  - case_bool_decide as Hx; [apply IH|].
    rewrite fmap_cons. constructor; [|apply IH].
    intros (r & Hk & Hr)%list_elem_of_fmap.
    apply drop_duplicates_from_unseen in Hr. set_solver.
Qed.



Lemma drop_duplicates_sublist seen l :
  sublist (drop_duplicates_from key seen l) l.
Proof.
  revert seen. induction l as [|x l IH]; intros seen; simpl; [constructor|].
  case_bool_decide; [apply sublist_cons | apply sublist_skip]; apply IH.
Qed.


End DropDuplicatesFacts.

(** ** [parse_flex_date] *)

Lemma is_digit_not_delim c :
  PyStr.is_digit c = true ->
  Ascii.eqb "/" c = false /\ Ascii.eqb "-" c = false /\ Ascii.eqb c "-" = false.
Proof.
  intros H. repeat split; apply Ascii.eqb_neq; intros E; subst c; discriminate H.
Qed.

(** A text taken by the fast path has "-" as its separator and splits
    into three parts, the first of four characters. *)
Lemma matches_iso_date_parts s :
  matches_iso_date s = true ->
  identify_delim s = Some "-"%char
  /\ exists a b c, PyStr.split "-" s = [a; b; c] /\ String.length a = 4%nat.
Proof.
  unfold matches_iso_date.
  destruct s as [|y1 [|y2 [|y3 [|y4 [|h1 [|m1 [|m2 [|h2 [|d1 [|d2 [|]]]]]]]]]]];
    try discriminate.
  intros H. do 9 (apply andb_true_iff in H as [H ?]).
  repeat match goal with
         | E : Ascii.eqb _ "-" = true |- _ => apply Ascii.eqb_eq in E; subst
         | D : PyStr.is_digit ?c = true |- _ =>
             destruct (is_digit_not_delim c D) as (? & ? & ?); clear D
         end.
  unfold identify_delim, PyStr.split.
  cbn [PyStr.contains PyStr.split_acc].
  repeat match goal with E : Ascii.eqb _ _ = false |- _ => rewrite !E end.
  rewrite !Ascii.eqb_refl.
  change (Ascii.eqb "/" "-") with false. cbn [orb].
  split; [reflexivity|]. eexists _, _, _. split; reflexivity.
Qed.

Section FlexDateFacts.

Variable to_datetime_ymd : string -> option date.
Variable to_datetime : bool -> string -> option date.

Let parse := parse_flex_date to_datetime_ymd to_datetime.

Lemma parse_flex_date_blank raw :
  PyStr.is_empty (PyStr.strip raw) = true -> parse (Some raw) = None.
Proof. intros H. unfold parse, parse_flex_date. by rewrite H. Qed.

(** The numeric three-part case: the whole text goes to the generic
    parser with the flag of the rule. *)
Lemma parse_flex_date_three_parts raw delim a b c ai bi :
  PyStr.is_empty (PyStr.strip raw) = false ->
  identify_delim (normalize_spaces (Some raw)) = Some delim ->
  PyStr.split delim (normalize_spaces (Some raw)) = [a; b; c] ->
  String.length a <> 4%nat ->
  int a = Some ai -> int b = Some bi ->
  parse (Some raw)
  = to_datetime (dayfirst_rule ai bi) (normalize_spaces (Some raw)).
Proof.
  intros Hblank Hdelim Hsplit Hlen Ha Hb.
  unfold parse, parse_flex_date. rewrite Hblank.
  destruct (matches_iso_date (normalize_spaces (Some raw))) eqn:Hiso.
  { apply matches_iso_date_parts in Hiso as (Hd & a' & b' & c' & Hs & Hl).
    rewrite Hd in Hdelim. injection Hdelim as <-.
    rewrite Hs in Hsplit. injection Hsplit as -> -> ->. done. }
  rewrite Hdelim, Hsplit.
  apply Nat.eqb_neq in Hlen. rewrite Hlen. by rewrite Ha, Hb.
Qed.

(** Without a separator, or with a split that is not in three parts,
    the whole text goes to the generic parser. *)
Lemma parse_flex_date_not_three_parts raw :
  PyStr.is_empty (PyStr.strip raw) = false ->
  (forall delim, identify_delim (normalize_spaces (Some raw)) = Some delim ->
     length (PyStr.split delim (normalize_spaces (Some raw))) <> 3%nat) ->
  parse (Some raw) = to_datetime false (normalize_spaces (Some raw)).
Proof.
  intros Hblank Hparts.
  unfold parse, parse_flex_date. rewrite Hblank.
  destruct (matches_iso_date (normalize_spaces (Some raw))) eqn:Hiso.
  { apply matches_iso_date_parts in Hiso as (Hd & a' & b' & c' & Hs & Hl).
    specialize (Hparts _ Hd). by rewrite Hs in Hparts. }
  destruct (identify_delim (normalize_spaces (Some raw))) as [delim|]; [|done].
  specialize (Hparts delim eq_refl).
  destruct (PyStr.split delim (normalize_spaces (Some raw)))
    as [|a [|b [|c [|d l]]]]; done.
Qed.

End FlexDateFacts.

(** C3. For a three-part text whose first part is not four characters
    long and whose first two parts are numeric, the layout flag handed to
    the parser follows the fixed precedence (second part above 12:
    month-first; else first part above 12: day-first; else month-first);
    and the three dates of the specification parse as stated. *)
Theorem parse_flex_date_precedence
    (to_datetime_ymd : string -> option date)
    (to_datetime : bool -> string -> option date)
    (raw : string) (delim : ascii) (a b c : string) (ai bi : Z) :
  PyStr.is_empty (PyStr.strip raw) = false ->
  identify_delim (normalize_spaces (Some raw)) = Some delim ->
  PyStr.split delim (normalize_spaces (Some raw)) = [a; b; c] ->
  String.length a <> 4%nat ->
  int a = Some ai -> int b = Some bi ->
  parse_flex_date to_datetime_ymd to_datetime (Some raw)
  = to_datetime (if 12 <? bi then false else if 12 <? ai then true else false)
                (normalize_spaces (Some raw))
  /\ parse_flex_date Pandas.to_datetime_ymd Pandas.to_datetime (Some "2024-03-05"%string)
     = Some (Date 2024 3 5)
  /\ parse_flex_date Pandas.to_datetime_ymd Pandas.to_datetime (Some "15/01/2024"%string)
     = Some (Date 2024 1 15)
  /\ parse_flex_date Pandas.to_datetime_ymd Pandas.to_datetime (Some "03-04-2024"%string)
     = Some (Date 2024 3 4).
Proof.
  intros Hblank Hdelim Hsplit Hlen Ha Hb. split; [|by vm_compute].
  by apply parse_flex_date_three_parts with delim a b c.
Qed.

Lemma parse_flex_date_precedence_witness :
  parse_flex_date Pandas.to_datetime_ymd Pandas.to_datetime (Some "15/01/2024"%string)
  = Pandas.to_datetime true "15/01/2024".
Proof.
  apply (parse_flex_date_precedence Pandas.to_datetime_ymd Pandas.to_datetime
           "15/01/2024" "/" "15" "01" "2024" 15 1); by vm_compute.
Defined.

(** C8, as stated, fails: a two-part text is handed to the generic parser,
    which reads the ISO year-month "2024-03" as the first of March. *)
Lemma parse_flex_date_two_parts_not_null :
  identify_delim (normalize_spaces (Some "2024-03"%string)) = Some "-"%char
  /\ length (PyStr.split "-" (normalize_spaces (Some "2024-03"%string))) = 2%nat
  /\ parse_flex_date Pandas.to_datetime_ymd Pandas.to_datetime (Some "2024-03"%string)
     = Some (Date 2024 3 1)
  /\ parse_flex_date Pandas.to_datetime_ymd Pandas.to_datetime (Some "2024-03"%string)
     <> None.
Proof. by vm_compute. Qed.

(** C8, amended. Null and blank inputs give null; a text without
    separator, or whose split is not in three parts, gives whatever the
    generic parser makes of the whole text, hence null exactly when that
    parse fails. *)
Theorem parse_flex_date_fallback
    (to_datetime_ymd : string -> option date)
    (to_datetime : bool -> string -> option date) (raw : string) :
  (forall delim, identify_delim (normalize_spaces (Some raw)) = Some delim ->
     length (PyStr.split delim (normalize_spaces (Some raw))) <> 3%nat) ->
  parse_flex_date to_datetime_ymd to_datetime None = None
  /\ (PyStr.is_empty (PyStr.strip raw) = true ->
      parse_flex_date to_datetime_ymd to_datetime (Some raw) = None)
  /\ (PyStr.is_empty (PyStr.strip raw) = false ->
      parse_flex_date to_datetime_ymd to_datetime (Some raw)
      = to_datetime false (normalize_spaces (Some raw))).
Proof.
  intros Hparts. split; [done|]. split.
  - apply parse_flex_date_blank.
  - intros Hblank. by apply parse_flex_date_not_three_parts.
Qed.

Lemma parse_flex_date_fallback_witness :
  parse_flex_date Pandas.to_datetime_ymd Pandas.to_datetime (Some "1/2/3/4"%string)
  = Pandas.to_datetime false "1/2/3/4".
Proof.
  destruct (parse_flex_date_fallback Pandas.to_datetime_ymd Pandas.to_datetime
              "1/2/3/4") as (_ & _ & H).
  - intros delim Hd. vm_compute in Hd. injection Hd as <-. vm_compute. lia.
  - apply H. reflexivity.
Defined.

(** ** Rounding and truncation *)



Lemma astype_int_trunc (q : Q) :
  let k := astype_int q in
  (Qabs (inject_Z k) <= Qabs q)%Q /\ (Qabs q < Qabs (inject_Z k) + 1)%Q
  /\ (0 <= k <-> (-1 < q)%Q).
Proof.
  destruct q as [n d]. unfold astype_int. cbn [Qnum Qden].
  pose proof (Pos2Z.is_pos d) as Hd.
  pose proof (Z.quot_rem' n (Z.pos d)) as E.
  pose proof (Z.rem_bound_abs n (Z.pos d)) as Hr.
  pose proof (Z.rem_sign_mul n (Z.pos d)) as Hs.
  set (k := n ÷ Z.pos d) in *. set (r := Z.rem n (Z.pos d)) in *.
  clearbody k r.
  unfold Qle, Qlt, Qabs, Qplus, inject_Z. cbn [Qnum Qden].
  rewrite ?Pos2Z.inj_mul.
  assert (Z.abs r < Z.pos d) as Hr' by lia.
  assert (0 <= r * n) as Hs' by (apply Hs; lia).
  clear Hr Hs.
  assert (n = 0 -> r = 0) as H0.
  { intros ->. apply Z.abs_lt in Hr'.
    destruct (Z.lt_trichotomy k 0) as [Hk|[Hk|Hk]]; nia. }
  assert (0 <= n -> 0 <= r) as Hpos.
  { intros Hn. destruct (Z.eq_dec n 0) as [Hz|Hz]; [lia|nia]. }
  assert (n <= 0 -> r <= 0) as Hneg.
  { intros Hn. destruct (Z.eq_dec n 0) as [Hz|Hz]; [lia|nia]. }
  destruct (Z.le_gt_cases 0 n) as [Hn|Hn].
  - specialize (Hpos Hn). assert (0 <= k) by nia.
    rewrite !Z.abs_eq by lia. repeat split; intros; nia.
  - assert (r <= 0) by lia. assert (k <= 0) by nia.
    rewrite !Z.abs_neq by lia. repeat split; intros; nia.
Qed.

(** ** The median *)



Lemma insert_sorted_perm x l : insert_sorted x l ≡ₚ x :: l.
Proof.
  induction l as [|y l IH]; simpl; [done|].
  destruct (Qle_bool x y); [done|]. rewrite IH. apply Permutation_swap.
Qed.

Lemma sort_Q_perm l : sort_Q l ≡ₚ l.
Proof.
  induction l as [|x l IH]; simpl; [done|].
  by rewrite insert_sorted_perm, IH.
Qed.

Lemma insert_sorted_Sorted x l :
  Sorted Qle l -> Sorted Qle (insert_sorted x l).
Proof.
  induction 1 as [|y l Hs IH Hhd]; simpl.
  - repeat constructor.
  - destruct (Qle_bool x y) eqn:E.
    + apply Qle_bool_iff in E. repeat constructor; done.
    + assert (y <= x)%Q as Hyx.
      { apply Qlt_le_weak, Qnot_le_lt. intros Hle.
        apply Qle_bool_iff in Hle. congruence. }
      constructor; [done|].
      destruct Hhd as [|z l Hyz]; simpl.
      * by constructor.
      * destruct (Qle_bool x z); by constructor.
Qed.

Lemma sort_Q_Sorted l : Sorted Qle (sort_Q l).
Proof.
  induction l as [|x l IH]; simpl; [constructor|].
  by apply insert_sorted_Sorted.
Qed.


Lemma median_empty : median [] = None.
Proof. reflexivity. Qed.

(** ** Product cleaning *)

Section ProductFacts.

Variable to_numeric : string -> option Q.



Lemma clean_product_columns frame row c :
  clean_product to_numeric frame row = Some c ->
  Products.columns c = Products.priced_row row
  /\ impute_price frame row = Some (Products.price_num c)
  /\ Products.stock_num c = stock_of to_numeric (Products.priced_row row).
Proof.
  unfold clean_product.
  destruct (impute_price frame row) as [p|]; simpl; [|done].
  by intros [= <-].
Qed.

End ProductFacts.






(** ** The connection monad *)

Lemma bind_unfold {A B} (m : DB.M A) (k : A -> DB.M B) c :
  (m ≫= k) c
  = match m c with
    | (DB.Ok a, c') => k a c'
    | (DB.Raised e, c') => (DB.Raised e, c')
    end.
Proof. reflexivity. Qed.

Lemma bind_Ok {A B} (m : DB.M A) (k : A -> DB.M B) c b c' :
  (m ≫= k) c = (DB.Ok b, c') ->
  exists a c1, m c = (DB.Ok a, c1) /\ k a c1 = (DB.Ok b, c').
Proof.
  rewrite bind_unfold. destruct (m c) as [[a|e] c1]; [eauto|done].
Qed.


Section LoadFacts.

Variable db_fails : nat -> DB.stmt -> DB.store -> bool.

Lemma execute_Ok s c k c' :
  execute db_fails s c = (DB.Ok k, c') ->
  DB.apply s (DB.working c) = (k, DB.working c')
  /\ DB.committed c' = DB.committed c
  /\ DB.executed c' = S (DB.executed c).
Proof.
  unfold execute. destruct (db_fails _ _ _); [done|].
  destruct (DB.apply s (DB.working c)) as [k' w]. by intros [= -> <-].
Qed.


Lemma commit_Ok c u c' :
  commit db_fails c = (DB.Ok u, c') ->
  DB.committed c' = DB.working c /\ DB.working c' = DB.working c
  /\ DB.executed c' = S (DB.executed c).
Proof. unfold commit. destruct (db_fails _ _ _); [done|]. by intros [= <- <-]. Qed.










End LoadFacts.

(** ** Failure of the load step *)

Section FailureFacts.

Variable db_fails : nat -> DB.stmt -> DB.store -> bool.

Lemma truncate_tables_Ok c u c1 :
  truncate_tables db_fails c = (DB.Ok u, c1) ->
  DB.working c1 = DB.empty /\ DB.committed c1 = DB.empty
  /\ DB.executed c1 = (DB.executed c + 7)%nat.
Proof.
  unfold truncate_tables. intros H.
  repeat match type of H with
         | (execute _ _ ≫= _) _ = _ =>
             let a := fresh "a" in let c' := fresh "c" in
             let E := fresh "E" in
             apply bind_Ok in H as (a & c' & E & H);
             apply execute_Ok in E as (E & ? & ?)
         end.
  repeat match goal with
         | E : DB.apply _ _ = (_, DB.working _) |- _ =>
             apply (f_equal snd) in E; cbn [snd] in E
         end.
  apply commit_Ok in H as (Hc & Hw & Hx).
  rewrite Hc, Hw. clear Hc Hw.
  split; [|split; [|lia]];
    repeat match goal with E : (DB.apply _ _).2 = DB.working _ |- _ =>
                    rewrite <- E end;
    by destruct (DB.working c).
Qed.




Lemma load_Ok customers products sales c l c' :
  load db_fails customers products sales c = (DB.Ok l, c') ->
  exists c1,
    load_body db_fails customers products sales c = (DB.Ok l, c1)
    /\ c' = DB.close c1.
Proof.
  unfold load, try_load.
  destruct (load_body db_fails customers products sales c) as [[l1|e1] c1];
    [|done].
  intros [= <- <-]. eauto.
Qed.

End FailureFacts.




(** ** Success of the load step *)



Lemma insert_rows_cons {A} (t : DB.table A) x l :
  insert_rows (DB.insert t x).2 l = insert_rows t (x :: l).
Proof.
  unfold insert_rows, DB.insert. cbn [snd DB.rows DB.auto_increment].
  rewrite <- app_assoc. simpl. f_equal. lia.
Qed.

Lemma insert_rows_nil {A} (t : DB.table A) : insert_rows t [] = t.
Proof.
  destruct t as [rows a]. unfold insert_rows. simpl.
  rewrite app_nil_r. f_equal. lia.
Qed.

Lemma key_map_lookup_notin a ks m k :
  k ∉ ks -> key_map a ks m !! k = m !! k.
Proof.
  revert a m. induction ks as [|k' ks IH]; intros a m Hk; simpl; [done|].
  apply not_elem_of_cons in Hk as [Hne Hk].
  rewrite IH by done. by rewrite lookup_insert_ne.
Qed.

Lemma key_map_lookup a ks m j k :
  NoDup ks -> ks !! j = Some k ->
  key_map a ks m !! k = Some (a + Z.of_nat j).
Proof.
  revert a m j. induction ks as [|k' ks IH]; intros a m j Hnd Hj; [done|].
  apply NoDup_cons in Hnd as [Hk' Hnd]. destruct j as [|j]; simpl in *.
  - injection Hj as ->. rewrite key_map_lookup_notin by done.
    rewrite lookup_insert_eq. f_equal. lia.
  - rewrite (IH _ _ j Hnd Hj). f_equal. lia.
Qed.

Lemma key_map_dom a ks m :
  dom (key_map a ks m) = list_to_set ks ∪ dom m.
Proof.
  revert a m. induction ks as [|k ks IH]; intros a m; simpl.
  - set_solver.
  - rewrite IH, dom_insert_L. set_solver.
Qed.

Lemma key_map_size a ks : NoDup ks -> size (key_map a ks ∅) = length ks.
Proof.
  intros Hnd. rewrite <- size_dom, key_map_dom, dom_empty_L, union_empty_r_L.
  by apply size_list_to_set.
Qed.

Section SuccessFacts.

Variable db_fails : nat -> DB.stmt -> DB.store -> bool.

Lemma insert_customers_Ok customers cust_map c m c' :
  insert_customers db_fails customers cust_map c = (DB.Ok m, c') ->
  m = key_map (DB.auto_increment (DB.customers (DB.working c)))
              (Customers.customer_id <$> customers) cust_map
  /\ DB.working c'
     = DB.Store (insert_rows (DB.customers (DB.working c))
                             (customer_values <$> customers))
                (DB.products (DB.working c)) (DB.orders (DB.working c))
                (DB.order_items (DB.working c))
  /\ DB.committed c' = DB.committed c.
Proof.
  revert cust_map c. induction customers as [|r rest IH]; intros cust_map c.
  - intros [= <- <-]. simpl. rewrite insert_rows_nil.
    by destruct (DB.working c).
  - simpl. intros (k & c1 & E & H)%bind_Ok.
    apply execute_Ok in E as (E & Hcm & _).
    apply IH in H as (-> & Hw & Hc).
    destruct (DB.working c) as [tc tp to ti]. simpl in E.
    injection E as <- E. rewrite <- E in Hw |- *. simpl in *.
    split; [done|]. split; [|congruence].
    rewrite Hw. f_equal. apply (insert_rows_cons tc).
Qed.

Lemma insert_products_Ok products prod_map c m c' :
  insert_products db_fails products prod_map c = (DB.Ok m, c') ->
  m = key_map (DB.auto_increment (DB.products (DB.working c)))
              ((Products.product_id ∘ Products.columns) <$> products) prod_map
  /\ DB.working c'
     = DB.Store (DB.customers (DB.working c))
                (insert_rows (DB.products (DB.working c))
                             (product_values <$> products))
                (DB.orders (DB.working c)) (DB.order_items (DB.working c))
  /\ DB.committed c' = DB.committed c.
Proof.
  revert prod_map c. induction products as [|r rest IH]; intros prod_map c.
  - intros [= <- <-]. simpl. rewrite insert_rows_nil.
    by destruct (DB.working c).
  - simpl. intros (k & c1 & E & H)%bind_Ok.
    apply execute_Ok in E as (E & Hcm & _).
    apply IH in H as (-> & Hw & Hc).
    destruct (DB.working c) as [tc tp to ti]. simpl in E.
    injection E as <- E. rewrite <- E in Hw |- *. simpl in *.
    split; [done|]. split; [|congruence].
    rewrite Hw. f_equal. apply (insert_rows_cons tp).
Qed.

Lemma items_from_lookup prod_map a l j r :
  l !! j = Some r ->
  items_from prod_map a l !! j = Some (item_of prod_map (a + Z.of_nat j) r).
Proof.
  revert a j. induction l as [|y l IH]; intros a [|j]; simpl; try done.
  - intros [= ->]. do 2 f_equal. lia.
  - intros H. rewrite (IH (a + 1) j H). do 2 f_equal. lia.
Qed.

Lemma length_items_from prod_map a l :
  length (items_from prod_map a l) = length l.
Proof. revert a. induction l as [|y l IH]; intros a; simpl; by rewrite ?IH. Qed.

Lemma insert_sales_Ok cust_map prod_map sales n1 n2 c n c' :
  insert_sales db_fails cust_map prod_map sales n1 n2 c = (DB.Ok n, c') ->
  let kept := filter (fun r => loadable cust_map prod_map r = true) sales in
  n = ((n1 + length kept)%nat, (n2 + length kept)%nat)
  /\ DB.working c'
     = DB.Store (DB.customers (DB.working c)) (DB.products (DB.working c))
                (insert_rows (DB.orders (DB.working c))
                             (order_of cust_map <$> kept))
                (insert_rows (DB.order_items (DB.working c))
                   (items_from prod_map
                      (DB.auto_increment (DB.orders (DB.working c))) kept))
  /\ DB.committed c' = DB.committed c.
Proof.
  revert n1 n2 c. induction sales as [|r rest IH]; intros n1 n2 c.
  - intros [= <- <-]. simpl. rewrite !insert_rows_nil.
    split; [f_equal; lia|]. by destruct (DB.working c).
  - cbn [insert_sales]. rewrite filter_cons.
    destruct (falsy _ || falsy _) eqn:Hskip.
    + rewrite decide_False by (unfold loadable; by rewrite Hskip). apply IH.
    + rewrite decide_True by (unfold loadable; by rewrite Hskip).
      intros (k & c1 & E1 & H)%bind_Ok.
      apply bind_Ok in H as (k2 & c2 & E2 & H).
      apply execute_Ok in E1 as (E1 & Hc1 & _).
      apply execute_Ok in E2 as (E2 & Hc2 & _).
      apply IH in H as (-> & Hw & Hc).
      destruct (DB.working c) as [tc tp to ti]. cbn in E1.
      injection E1 as <- E1. rewrite <- E1 in E2. cbn in E2.
      injection E2 as _ E2. rewrite <- E2 in Hw. cbn in Hw.
      cbn zeta. cbn [length fmap list_fmap items_from DB.customers DB.products
                       DB.orders DB.order_items].
      split; [f_equal; lia|]. split; [|congruence].
      rewrite Hw. f_equal.
      * apply (insert_rows_cons to).
      * apply (insert_rows_cons ti).
Qed.

(** What a successful body leaves: the four tables hold exactly the
    rows of the cleaned frames, numbered from 1, and they are
    committed. *)
Lemma load_body_Ok customers products sales c l c' :
  load_body db_fails customers products sales c = (DB.Ok l, c') ->
  let cust_map := key_map 1 (Customers.customer_id <$> customers) ∅ in
  let prod_map :=
    key_map 1 ((Products.product_id ∘ Products.columns) <$> products) ∅ in
  let kept := filter (fun r => loadable cust_map prod_map r = true) sales in
  l = Loaded (size cust_map) (size prod_map) (length kept) (length kept)
  /\ DB.committed c'
     = DB.Store (insert_rows DB.truncate (customer_values <$> customers))
                (insert_rows DB.truncate (product_values <$> products))
                (insert_rows DB.truncate (order_of cust_map <$> kept))
                (insert_rows DB.truncate (items_from prod_map 1 kept))
  /\ DB.working c' = DB.committed c'.
Proof.
  unfold load_body.
  intros (u & c1 & Ht & H)%bind_Ok.
  apply bind_Ok in H as (cm & c2 & Hcust & H).
  apply bind_Ok in H as (pm & c3 & Hprod & H).
  apply bind_Ok in H as (n & c4 & Hsales & H).
  apply bind_Ok in H as (u' & c5 & Hcommit & H).
  injection H as <- <-.
  apply truncate_tables_Ok in Ht as (Hw1 & _ & _).
  apply insert_customers_Ok in Hcust as (-> & Hw2 & _).
  apply insert_products_Ok in Hprod as (-> & Hw3 & _).
  apply insert_sales_Ok in Hsales as (-> & Hw4 & _).
  apply commit_Ok in Hcommit as (Hc5 & Hw5 & _).
  unfold DB.empty in Hw1.
  rewrite Hw1 in Hw2. cbn [DB.customers DB.products DB.orders DB.order_items] in Hw2.
  rewrite Hw2 in Hw3. cbn [DB.customers DB.products DB.orders DB.order_items] in Hw3.
  rewrite Hw3 in Hw4. cbn [DB.customers DB.products DB.orders DB.order_items] in Hw4.
  rewrite Hw1, Hw2. cbn [DB.customers DB.products DB.orders DB.order_items].
  rewrite ?Hw1, ?Hw2 in Hw4.
  cbn [DB.customers DB.products DB.orders DB.order_items] in Hw4.
  change (DB.auto_increment DB.truncate) with 1 in *.
  split; [done|]. split; [|congruence].
  rewrite Hc5, Hw4. done.
Qed.

End SuccessFacts.

(** ** Counting rows *)

Lemma filter_split_length {A} (P : A -> Prop) `{!forall x, Decision (P x)}
    (l : list A) :
  (length (filter P l) + length (filter (fun x => ~ P x) l) = length l)%nat.
Proof.
  induction l as [|x l IH]; [done|].
  rewrite !filter_cons. destruct (decide (P x)).
  - rewrite decide_False by tauto. simpl. lia.
  - rewrite decide_True by done. simpl. lia.
Qed.

Lemma mask_sum_split {A} (mask : A -> bool) (l : list A) :
  (length (filter (fun r => mask r = false) l) + mask_sum mask l = length l)%nat.
Proof.
  unfold mask_sum. induction l as [|x l IH]; [done|].
  rewrite !filter_cons. destruct (mask x) eqn:E.
  - rewrite decide_False by done. rewrite decide_True by done. simpl. lia.
  - rewrite decide_True by done. rewrite decide_False by done. simpl. lia.
Qed.

Lemma omap_split_length {A B} (h : A -> option B) (l : list A) :
  (length (omap h l) + mask_sum (fun x => isna (h x)) l = length l)%nat.
Proof.
  unfold mask_sum. induction l as [|x l IH]; [done|].
  rewrite filter_cons. cbn [omap list_omap].
  destruct (h x); cbn [isna]; case_decide; try done; simpl; lia.
Qed.

Lemma omap_total_length {A B} (h : A -> option B) (l : list A) :
  (forall x, x ∈ l -> is_Some (h x)) -> length (omap h l) = length l.
Proof.
  induction l as [|x l IH]; intros Hall; [done|]. cbn [omap list_omap].
  destruct (Hall x) as [y Hy]; [left|]. rewrite Hy. cbn [length].
  f_equal. apply IH. intros z Hz. apply Hall. by right.
Qed.

Lemma NoDup_omap_keys {A B} (f : A -> string) (g : B -> string)
    (h : A -> option B) (l : list A) :
  (forall x y, h x = Some y -> g y = f x) ->
  NoDup (f <$> l) -> NoDup (g <$> omap h l).
Proof.
  intros Hkey. induction l as [|x l IH]; simpl; [done|].
  rewrite NoDup_cons. intros [Hx Hnd].
  destruct (h x) as [y|] eqn:E; simpl; [|by apply IH].
  rewrite NoDup_cons. split; [|by apply IH].
  intros (y' & Hy' & (x' & Hx' & E')%list_elem_of_omap)%list_elem_of_fmap.
  apply Hx. apply list_elem_of_fmap. exists x'. split; [|done].
  rewrite <- (Hkey _ _ E), <- (Hkey _ _ E'). done.
Qed.

Lemma drop_duplicates_length {A} (key : A -> string) (l : list A) :
  (length (drop_duplicates key l) <= length l)%nat.
Proof. apply sublist_length, drop_duplicates_sublist. Qed.

(** ** The frames handed to the load step *)

Section PipelineFacts.

Variable to_numeric : string -> option Q.
Variable to_datetime_ymd : string -> option date.
Variable to_datetime : bool -> string -> option date.

Lemma cleaned_customers_keys customers :
  Customers.customer_id <$> cleaned_customers to_datetime_ymd to_datetime customers
  = Customers.customer_id
      <$> dedup_customers (Customers.applymap normalize_spaces <$> customers).
Proof.
  unfold cleaned_customers, clean_customers.
  rewrite <- list_fmap_compose. by apply list_fmap_ext.
Qed.

Lemma cleaned_customers_NoDup customers :
  NoDup (Customers.customer_id
           <$> cleaned_customers to_datetime_ymd to_datetime customers).
Proof.
  rewrite cleaned_customers_keys. apply drop_duplicates_from_NoDup.
Qed.

Lemma cleaned_products_NoDup products :
  NoDup ((Products.product_id ∘ Products.columns)
           <$> cleaned_products to_numeric products).
Proof.
  unfold cleaned_products, clean_products.
  apply (NoDup_omap_keys (Products.product_id ∘ Products.priced_row)).
  - intros row c Hc. apply clean_product_columns in Hc as (Hc & _).
    simpl. by rewrite Hc.
  - unfold priced_products. rewrite <- list_fmap_compose.
    change (NoDup (Products.product_id <$> dedup_products
                     (Products.applymap normalize_spaces <$> products))).
    apply drop_duplicates_from_NoDup.
Qed.

Lemma clean_sale_total sales r :
  r ∈ sales_with_date to_numeric to_datetime_ymd to_datetime sales ->
  is_Some (clean_sale to_numeric to_datetime_ymd to_datetime r).
Proof.
  unfold sales_with_date, sales_with_price.
  intros [Hdate [Hprice _]%list_elem_of_filter]%list_elem_of_filter.
  unfold clean_sale, invalid_date, missing_unit_price in *.
  destruct (to_numeric _); [|done].
  destruct (parse_flex_date _ _ _); [|done]. by eexists.
Qed.

Lemma length_clean_sales sales :
  length (clean_sales to_numeric to_datetime_ymd to_datetime sales)
  = length (sales_with_date to_numeric to_datetime_ymd to_datetime sales).
Proof. apply omap_total_length. intros r. apply clean_sale_total. Qed.

End PipelineFacts.

(** A row kept by the integrity filter is kept by the load loop. *)
Lemma integrity_filter_loadable customers products sales r :
  NoDup (Customers.customer_id <$> customers) ->
  NoDup ((Products.product_id ∘ Products.columns) <$> products) ->
  r ∈ integrity_filter customers products sales ->
  exists ci pi,
    (Customers.customer_id <$> customers) !! ci
      = Some (Sales.customer_id (Sales.columns r))
    /\ ((Products.product_id ∘ Products.columns) <$> products) !! pi
       = Some (Sales.product_id (Sales.columns r))
    /\ key_map 1 (Customers.customer_id <$> customers) ∅
         !! Sales.customer_id (Sales.columns r) = Some (1 + Z.of_nat ci)
    /\ key_map 1 ((Products.product_id ∘ Products.columns) <$> products) ∅
         !! Sales.product_id (Sales.columns r) = Some (1 + Z.of_nat pi)
    /\ loadable (key_map 1 (Customers.customer_id <$> customers) ∅)
                (key_map 1 ((Products.product_id ∘ Products.columns) <$> products) ∅)
                r = true.
Proof.
  intros Hc Hp. unfold integrity_filter, valid_customer_ids, valid_product_ids.
  intros [Hpid [Hcid _]%list_elem_of_filter]%list_elem_of_filter.
  apply elem_of_list_to_set, list_elem_of_lookup in Hcid as [ci Hci].
  apply elem_of_list_to_set, list_elem_of_lookup in Hpid as [pi Hpi].
  pose proof (key_map_lookup 1 _ ∅ _ _ Hc Hci) as Hcm.
  pose proof (key_map_lookup 1 _ ∅ _ _ Hp Hpi) as Hpm.
  exists ci, pi. repeat split; try done.
  unfold loadable. rewrite Hcm, Hpm. cbn [falsy].
  destruct (1 + Z.of_nat ci =? 0) eqn:E1; [apply Z.eqb_eq in E1; lia|].
  destruct (1 + Z.of_nat pi =? 0) eqn:E2; [apply Z.eqb_eq in E2; lia|]. done.
Qed.

Lemma filter_all_true {A} (P : A -> Prop) `{!forall x, Decision (P x)}
    (l : list A) :
  (forall x, x ∈ l -> P x) -> filter P l = l.
Proof.
  induction l as [|x l IH]; intros Hall; [done|].
  rewrite filter_cons, decide_True by (apply Hall; left).
  f_equal. apply IH. intros y Hy. apply Hall. by right.
Qed.

(** The subtotal is the product of the quantity and the stored unit
    price: rounding that product changes nothing. *)
Lemma round_half_up_integer (k : Z) (d : positive) :
  round_half_up (k * Z.pos d # d) = k.
Proof.
  unfold round_half_up. cbn [Qnum Qden].
  pose proof (Pos2Z.is_pos d) as Hd.
  rewrite Z.abs_mul, (Z.abs_eq (Z.pos d)) by lia.
  replace ((2 * (Z.abs k * Z.pos d) + Z.pos d) / (2 * Z.pos d)) with (Z.abs k).
  - rewrite Z.sgn_mul, (Z.sgn_pos (Z.pos d)) by lia.
    rewrite Z.mul_1_r, Z.mul_comm. apply Z.abs_sgn.
  - apply Z.div_unique with (Z.pos d); lia.
Qed.


(** ** A successful run *)

Section RunFacts.

Variable to_numeric : string -> option Q.
Variable to_datetime_ymd : string -> option date.
Variable to_datetime : bool -> string -> option date.
Variable db_fails : nat -> DB.stmt -> DB.store -> bool.

(** The store and the report left by a run that does not raise. *)
Lemma run_etl_Ok customers products sales db :
let r := run_etl to_numeric to_datetime_ymd to_datetime db_fails
           customers products sales db in
let cs := cleaned_customers to_datetime_ymd to_datetime customers in
let ps := cleaned_products to_numeric products in
let ss := cleaned_sales to_numeric to_datetime_ymd to_datetime
            customers products sales in
let cust_map := key_map 1 (Customers.customer_id <$> cs) ∅ in
let prod_map := key_map 1 ((Products.product_id ∘ Products.columns) <$> ps) ∅ in
raised r = None ->
DB.committed (connection r)
= DB.Store (insert_rows DB.truncate (customer_values <$> cs))
           (insert_rows DB.truncate (product_values <$> ps))
           (insert_rows DB.truncate (order_of cust_map <$> ss))
           (insert_rows DB.truncate (items_from prod_map 1 ss))
/\ report_file r
   = Some (with_loaded
             (report_before_load to_numeric to_datetime_ymd to_datetime
                customers products sales)
             (Loaded (length cs) (length ps) (length ss) (length ss))).
Proof.
intros r cs ps ss cust_map prod_map. subst r. unfold run_etl.
fold cs ps ss.
destruct (load db_fails cs ps ss (DB.connect db)) as [[l|e] c'] eqn:Hload;
  [|done].
intros _. cbn [connection report_file].
apply load_Ok in Hload as (c1 & Hbody & ->).
apply load_body_Ok in Hbody as (-> & Hcommitted & _).
fold cust_map prod_map in Hcommitted |- *.
assert (NoDup (Customers.customer_id <$> cs)) as Hcs
  by apply cleaned_customers_NoDup.
assert (NoDup ((Products.product_id ∘ Products.columns) <$> ps)) as Hps
  by apply cleaned_products_NoDup.
assert (filter (fun r => loadable cust_map prod_map r = true) ss = ss) as Hkept.
{ apply filter_all_true. intros s Hs.
  by destruct (integrity_filter_loadable _ _ _ _ Hcs Hps Hs)
    as (? & ? & _ & _ & _ & _ & ?). }
rewrite Hkept in Hcommitted |- *.
split; [exact Hcommitted|].
unfold cust_map, prod_map. rewrite !key_map_size by done.
by rewrite !length_fmap.
Qed.

End RunFacts.





(** ** The quality report *)

Lemma mask_sum_split_true {A} (mask : A -> bool) (l : list A) :
  (length (filter (fun r => mask r = true) l) + mask_sum (fun r => negb (mask r)) l
   = length l)%nat.
Proof.
  unfold mask_sum. induction l as [|x l IH]; [done|].
  rewrite !filter_cons.
  repeat case_decide; simpl; try lia; destruct (mask x); simpl in *; congruence.
Qed.

Lemma integrity_filter_split customers products sales :
  (length (integrity_filter customers products sales)
   + sales_integrity_dropped customers products sales = length sales)%nat.
Proof.
  unfold integrity_filter, sales_integrity_dropped, mask_sum.
  induction sales as [|x l IH]; [done|].
  rewrite !filter_cons.
  destruct (decide (Sales.customer_id (Sales.columns x)
                    ∈ valid_customer_ids customers)) as [Hc|Hc].
  - rewrite filter_cons.
    destruct (decide (Sales.product_id (Sales.columns x)
                      ∈ valid_product_ids products)) as [Hp|Hp].
    + rewrite !bool_decide_eq_true_2 by done.
      rewrite decide_False by done. simpl. lia.
    + rewrite bool_decide_eq_true_2, bool_decide_eq_false_2 by done.
      rewrite decide_True by done. simpl. lia.
  - rewrite (bool_decide_eq_false_2 _ Hc).
    rewrite decide_True by done. simpl. lia.
Qed.

Lemma clean_products_split (to_numeric : string -> option Q)
    (products : list Products.raw) :
  (length (clean_products to_numeric products)
   + products_without_price (priced_products to_numeric products)
   = length (dedup_products products))%nat.
Proof.
  unfold clean_products, products_without_price.
  set (frame := priced_products to_numeric products).
  pose proof (omap_split_length (clean_product to_numeric frame) frame) as H.
  replace (length (dedup_products products)) with (length frame)
    by (unfold frame, priced_products; apply length_fmap).
  rewrite <- H. f_equal. unfold mask_sum. f_equal.
  apply list_filter_iff. intros row. unfold clean_product.
  by destruct (impute_price frame row).
Qed.

Lemma cleaned_sales_split (to_numeric : string -> option Q)
    (to_datetime_ymd : string -> option date)
    (to_datetime : bool -> string -> option date)
    (sales : list Sales.raw) :
  (length (clean_sales to_numeric to_datetime_ymd to_datetime sales)
   + mask_sum missing_cust (dedup_sales sales)
   + mask_sum missing_prod (sales_with_customer sales)
   + sales_quantity_dropped to_numeric sales
   + sales_unit_price_dropped to_numeric sales
   + mask_sum (invalid_date to_datetime_ymd to_datetime)
              (sales_with_price to_numeric sales)
   = length (dedup_sales sales))%nat.
Proof.
  rewrite length_clean_sales.
  pose proof (mask_sum_split missing_cust (dedup_sales sales)) as H1.
  pose proof (mask_sum_split missing_prod (sales_with_customer sales)) as H2.
  pose proof (mask_sum_split_true (positive_quantity to_numeric)
                (sales_with_product sales)) as H3.
  pose proof (mask_sum_split (missing_unit_price to_numeric)
                (sales_with_quantity to_numeric sales)) as H4.
  pose proof (mask_sum_split (invalid_date to_datetime_ymd to_datetime)
                (sales_with_price to_numeric sales)) as H5.
  unfold sales_quantity_dropped, sales_unit_price_dropped.
  unfold sales_with_date, sales_with_price, sales_with_quantity,
    sales_with_product, sales_with_customer in *.
  lia.
Qed.

(** C2, as stated, fails: of four sales rows two are loaded, none is a
    duplicate, and the three drop counters of the report are all zero:
    the row with quantity 0 and the row dropped by the integrity filter
    are counted nowhere. *)
Lemma example_report_does_not_reconcile :
  exists rep,
    report_file example_run = Some rep
    /\ sales_raw rep = 4%nat /\ orders_loaded rep = 2%nat
    /\ sales_dupes_removed rep = 0%nat
    /\ sales_missing_customer_dropped rep = 0%nat
    /\ sales_missing_product_dropped rep = 0%nat
    /\ sales_invalid_date_dropped rep = 0%nat
    /\ sales_raw rep
       <> (orders_loaded rep + sales_dupes_removed rep
           + sales_missing_customer_dropped rep
           + sales_missing_product_dropped rep
           + sales_invalid_date_dropped rep)%nat.
Proof.
  assert (exists rep, report_file example_run = Some rep) as [rep Hrep]
    by (vm_compute; eauto).
  exists rep. split; [done|].
  vm_compute in Hrep. injection Hrep as <-. simpl. repeat split; lia.
Qed.

(** C2, amended. In the report of a run that does not raise, the customer
    counters reconcile (raw = loaded + duplicates removed) and orders
    loaded = order items loaded.  The product and sales counters reconcile
    only together with drops that the report does not count: products
    without a price and without priced peers in their category; sales rows
    dropped for a quantity that is not positive or does not parse, for a
    unit price that does not parse, and by the integrity filter. *)
Theorem report_reconciles_with_uncounted_drops
    (to_numeric : string -> option Q)
    (to_datetime_ymd : string -> option date)
    (to_datetime : bool -> string -> option date)
    (db_fails : nat -> DB.stmt -> DB.store -> bool)
    (customers : list Customers.csv) (products : list Products.csv)
    (sales : list Sales.csv) (db : DB.store) :
  let r := run_etl to_numeric to_datetime_ymd to_datetime db_fails
             customers products sales db in
  let products_raw_frame := Products.applymap normalize_spaces <$> products in
  let sales_raw_frame := Sales.applymap normalize_spaces <$> sales in
  raised r = None ->
  exists rep,
    report_file r = Some rep
    /\ customers_raw rep
       = (customers_loaded rep + customers_dupes_removed rep)%nat
    /\ products_raw rep
       = (products_loaded rep + products_dupes_removed rep
          + products_without_price
              (priced_products to_numeric products_raw_frame))%nat
    /\ sales_raw rep
       = (orders_loaded rep + sales_dupes_removed rep
          + sales_missing_customer_dropped rep
          + sales_missing_product_dropped rep
          + sales_invalid_date_dropped rep
          + sales_quantity_dropped to_numeric sales_raw_frame
          + sales_unit_price_dropped to_numeric sales_raw_frame
          + sales_integrity_dropped
              (cleaned_customers to_datetime_ymd to_datetime customers)
              (cleaned_products to_numeric products)
              (clean_sales to_numeric to_datetime_ymd to_datetime
                 sales_raw_frame))%nat
    /\ order_items_loaded rep = orders_loaded rep.
Proof.
  intros r pf sf Hok.
  destruct (run_etl_Ok to_numeric to_datetime_ymd to_datetime db_fails
              customers products sales db Hok) as (_ & Hrep).
  eexists. split; [exact Hrep|].
  cbn [with_loaded report_before_load customers_raw customers_loaded
       customers_dupes_removed products_raw products_loaded
       products_dupes_removed sales_raw orders_loaded order_items_loaded
       sales_dupes_removed sales_missing_customer_dropped
       sales_missing_product_dropped sales_invalid_date_dropped
       n_customers n_products n_orders n_order_items].
  fold pf sf.
  split; [|split; [|split; [|done]]].
  - unfold cleaned_customers, clean_customers.
    pose proof (drop_duplicates_length Customers.customer_id
                  (Customers.applymap normalize_spaces <$> customers)) as H.
    unfold dedup_customers.
    set (d := drop_duplicates _ _) in *.
    assert (length (clean_customer to_datetime_ymd to_datetime <$> d)
            = length d) as -> by apply length_fmap.
    unfold Customers.raw, Customers.csv, Customers.clean in *. lia.
  - unfold cleaned_products. fold pf.
    pose proof (clean_products_split to_numeric pf) as H1.
    pose proof (drop_duplicates_length Products.product_id pf) as H2.
    unfold dedup_products in *.
    unfold Products.raw, Products.csv in *. lia.
  - unfold cleaned_sales. fold sf.
    pose proof (integrity_filter_split
                  (cleaned_customers to_datetime_ymd to_datetime customers)
                  (cleaned_products to_numeric products)
                  (clean_sales to_numeric to_datetime_ymd to_datetime sf)) as H1.
    pose proof (cleaned_sales_split to_numeric to_datetime_ymd to_datetime sf)
      as H2.
    pose proof (drop_duplicates_length Sales.transaction_id sf) as H3.
    unfold dedup_sales in *.
    unfold Sales.raw, Sales.csv in *. lia.
Qed.

Lemma report_reconciles_with_uncounted_drops_witness :
  exists rep,
    report_file example_run = Some rep
    /\ sales_raw rep = (orders_loaded rep + 0 + 0 + 0 + 0 + 1 + 0 + 1)%nat.
Proof.
  assert (raised example_run = None) as Hok by (by vm_compute).
  destruct (report_reconciles_with_uncounted_drops _ _ _ _ _ _ _ _ Hok)
    as (rep & Hrep & _ & _ & Hsales & _).
  exists rep. split; [exact Hrep|].
  rewrite Hsales. clear Hsales.
  vm_compute in Hrep. injection Hrep as <-. by vm_compute.
Defined.

(** * Further properties *)

(** ** White space *)

Lemma length_collapse_spaces b s :
  (String.length (PyStr.collapse_spaces b s) <= String.length s)%nat.
Proof.
  revert b. induction s as [|c s IH]; intros b; simpl; [done|].
  destruct (PyStr.is_space c); [destruct b|]; simpl;
    [specialize (IH true) | specialize (IH true) | specialize (IH false)]; lia.
Qed.

Lemma length_lstrip s : (String.length (PyStr.lstrip s) <= String.length s)%nat.
Proof.
  induction s as [|c s IH]; simpl; [done|].
  destruct (PyStr.is_space c); simpl; lia.
Qed.

Lemma collapse_spaces_collapse b s :
  PyStr.collapse_spaces b (PyStr.collapse_spaces b s) = PyStr.collapse_spaces b s.
Proof.
  revert b. induction s as [|c s IH]; intros b; simpl; [done|].
  destruct (PyStr.is_space c) eqn:E.
  - destruct b; [apply IH|]. simpl. by rewrite IH.
  - simpl. by rewrite E, IH.
Qed.

(** A text that collapsing leaves alone stays so when stripped. *)
Lemma collapse_spaces_lstrip b s :
  PyStr.collapse_spaces b s = s ->
  PyStr.collapse_spaces false (PyStr.lstrip s) = PyStr.lstrip s.
Proof.
  revert b. induction s as [|c s IH]; intros b; simpl; [done|].
  destruct (PyStr.is_space c) eqn:E.
  - destruct b.
    + intros H. pose proof (length_collapse_spaces true s) as Hlen.
      rewrite H in Hlen. simpl in Hlen. lia.
    + intros [= _ H]. by apply (IH true).
  - intros [= H]. simpl. by rewrite E, H.
Qed.

Lemma collapse_spaces_rstrip b s :
  PyStr.collapse_spaces b s = s ->
  PyStr.collapse_spaces b (PyStr.rstrip s) = PyStr.rstrip s.
Proof.
  revert b. induction s as [|c s IH]; intros b; simpl; [done|].
  destruct (PyStr.is_space c) eqn:E.
  - destruct b.
    + intros H. pose proof (length_collapse_spaces true s) as Hlen.
      rewrite H in Hlen. simpl in Hlen. lia.
    + intros [= Hc H]. specialize (IH true H).
      destruct (PyStr.rstrip s) as [|c' r]; [done|].
      simpl in *. rewrite E. by rewrite IH, <- Hc.
  - intros [= H]. specialize (IH false H).
    destruct (PyStr.rstrip s) as [|c' r]; simpl; rewrite E; [done|].
    simpl in IH. by rewrite IH.
Qed.

Lemma lstrip_lstrip s : PyStr.lstrip (PyStr.lstrip s) = PyStr.lstrip s.
Proof.
  induction s as [|c s IH]; simpl; [done|].
  destruct (PyStr.is_space c) eqn:E; [done|]. simpl. by rewrite E.
Qed.

Lemma rstrip_rstrip s : PyStr.rstrip (PyStr.rstrip s) = PyStr.rstrip s.
Proof.
  induction s as [|c s IH]; simpl; [done|].
  destruct (PyStr.rstrip s) as [|c' r] eqn:Hr.
  - destruct (PyStr.is_space c) eqn:E; simpl; [done|]. by rewrite E.
  - simpl in *. by rewrite IH.
Qed.

Lemma lstrip_rstrip s :
  PyStr.lstrip s = s -> PyStr.lstrip (PyStr.rstrip s) = PyStr.rstrip s.
Proof.
  destruct s as [|c s]; simpl; [done|].
  destruct (PyStr.is_space c) eqn:E.
  - intros H. pose proof (length_lstrip s) as Hlen.
    rewrite H in Hlen. simpl in Hlen. lia.
  - intros _. destruct (PyStr.rstrip s); simpl; by rewrite E.
Qed.

Lemma strip_strip s : PyStr.strip (PyStr.strip s) = PyStr.strip s.
Proof.
  unfold PyStr.strip.
  rewrite (lstrip_rstrip (PyStr.lstrip s)) by apply lstrip_lstrip.
  apply rstrip_rstrip.
Qed.

Lemma all_collapse_spaces p b s :
  p " "%char = true ->
  PyStr.all p s = true -> PyStr.all p (PyStr.collapse_spaces b s) = true.
Proof.
  intros Hsp. revert b. induction s as [|c s IH]; intros b; simpl; [done|].
  intros [Hc Hs]%andb_true_iff.
  destruct (PyStr.is_space c); [destruct b|]; simpl;
    rewrite ?Hsp, ?Hc, ?IH; done.
Qed.

Lemma all_lstrip p s :
  PyStr.all p s = true -> PyStr.all p (PyStr.lstrip s) = true.
Proof.
  induction s as [|c s IH]; simpl; [done|].
  intros [Hc Hs]%andb_true_iff.
  destruct (PyStr.is_space c); [by apply IH|]. simpl. by rewrite Hc, Hs.
Qed.

Lemma all_rstrip p s :
  PyStr.all p s = true -> PyStr.all p (PyStr.rstrip s) = true.
Proof.
  induction s as [|c s IH]; simpl; [done|].
  intros [Hc Hs]%andb_true_iff. specialize (IH Hs).
  destruct (PyStr.rstrip s); [destruct (PyStr.is_space c)|]; simpl in *;
    rewrite ?Hc, ?IH; done.
Qed.

(** In the output of [collapse_spaces] every white-space character is a
    plain space. *)
Lemma collapse_spaces_plain b s :
  PyStr.all (fun c => negb (PyStr.is_space c) || Ascii.eqb c " ")
            (PyStr.collapse_spaces b s) = true.
Proof.
  revert b. induction s as [|c s IH]; intros b; simpl; [done|].
  destruct (PyStr.is_space c) eqn:E; [destruct b|]; simpl;
    rewrite ?E, ?IH; done.
Qed.

Lemma normalize_spaces_collapsed (text : option string) :
  PyStr.collapse_spaces false (normalize_spaces text) = normalize_spaces text.
Proof.
  destruct text as [s|]; [|done]. unfold normalize_spaces, PyStr.strip.
  apply collapse_spaces_rstrip, (collapse_spaces_lstrip false).
  apply collapse_spaces_collapse.
Qed.

Lemma normalize_spaces_stripped (text : option string) :
  PyStr.strip (normalize_spaces text) = normalize_spaces text.
Proof. destruct text as [s|]; [|done]. apply strip_strip. Qed.

Lemma normalize_spaces_fixed (text : option string) :
  normalize_spaces (Some (normalize_spaces text)) = normalize_spaces text.
Proof.
  unfold normalize_spaces at 1.
  by rewrite normalize_spaces_collapsed, normalize_spaces_stripped.
Qed.

(** X1. [normalize_spaces] is idempotent: its result is left alone by the
    collapsing of white space and by the stripping of the ends, and in it
    every white-space character is a plain space. *)
Theorem normalize_spaces_idempotent (text : option string) :
  let r := normalize_spaces text in
  normalize_spaces (Some r) = r
  /\ PyStr.collapse_spaces false r = r
  /\ PyStr.strip r = r
  /\ PyStr.all (fun c => negb (PyStr.is_space c) || Ascii.eqb c " ") r = true.
Proof.
  cbn zeta. split; [apply normalize_spaces_fixed|].
  split; [apply normalize_spaces_collapsed|].
  split; [apply normalize_spaces_stripped|].
  destruct text as [s|]; [|done]. unfold normalize_spaces, PyStr.strip.
  apply all_rstrip, all_lstrip, collapse_spaces_plain.
Qed.

(** ** Letter case *)


Lemma case_char c :
  PyStr.to_lower (PyStr.to_lower c) = PyStr.to_lower c
  /\ PyStr.to_upper (PyStr.to_upper c) = PyStr.to_upper c
  /\ PyStr.to_lower (PyStr.to_upper c) = PyStr.to_lower c
  /\ PyStr.is_space (PyStr.to_lower c) = PyStr.is_space c
  /\ (PyStr.is_space c = true -> PyStr.to_lower c = c)
  /\ (PyStr.is_space c = true -> PyStr.is_alpha c = false).
Proof.
  destruct c as [[] [] [] [] [] [] [] []]; vm_compute; repeat split;
    intros H; try discriminate H; reflexivity.
Qed.








Lemma lower_lower s : PyStr.lower (PyStr.lower s) = PyStr.lower s.
Proof.
  unfold PyStr.lower. induction s as [|c s IH]; [done|]. simpl.
  destruct (case_char c) as (-> & _). by rewrite IH.
Qed.







Lemma is_empty_lower s : PyStr.is_empty (PyStr.lower s) = PyStr.is_empty s.
Proof. by destruct s. Qed.



(** ** Phone numbers, again *)

Lemma all_filter p s : PyStr.all p (PyStr.filter p s) = true.
Proof.
  induction s as [|c s IH]; simpl; [done|].
  destruct (p c) eqn:E; simpl; by rewrite ?E, ?IH.
Qed.

Lemma all_drop p n s :
  PyStr.all p s = true -> PyStr.all p (PyStr.drop n s) = true.
Proof.
  revert s. induction n as [|n IH]; intros [|c s]; simpl; try done.
  intros [_ Hs]%andb_true_iff. by apply IH.
Qed.

(** X4. Every number that [normalize_phone] returns is "+91-" followed by
    exactly ten digits, and normalising it again gives it back. *)
Theorem normalize_phone_result (phone : option string) (r : string) :
  normalize_phone phone = Some r ->
  exists d,
    r = ("+91-" ++ d)%string
    /\ String.length d = 10%nat
    /\ PyStr.all PyStr.is_digit d = true
    /\ normalize_phone (Some r) = Some r.
Proof.
  destruct phone as [s|]; [|done].
  rewrite normalize_phone_digits.
  destruct (10 <=? String.length (digits_only s))%nat eqn:E; [|done].
  apply Nat.leb_le in E. intros [= <-].
  set (d := PyStr.suffix 10 (digits_only s)).
  assert (String.length d = 10%nat) as Hlen
    by (unfold d; rewrite length_suffix; lia).
  assert (PyStr.all PyStr.is_digit d = true) as Hdig
    by apply all_drop, all_filter.
  exists d. split; [done|]. split; [done|]. split; [done|].
  apply (normalize_phone_of_digits _ "91"); [|done].
  unfold digits_only. simpl.
  change (String.append EmptyString d) with d. by rewrite (filter_all _ _ Hdig).
Qed.

Lemma normalize_phone_result_witness :
  normalize_phone (Some "+91-9988776655"%string) = Some "+91-9988776655"%string.
Proof.
  destruct (normalize_phone_result (Some "09988776655"%string)
              "+91-9988776655" eq_refl) as (d & _ & _ & _ & H).
  exact H.
Defined.

(** X5. [normalize_phone] sees its input only through its digit
    characters: two texts with the same digits, whatever their separators
    and spacing, give the same result. *)
Theorem normalize_phone_separators (s1 s2 : string) :
  digits_only s1 = digits_only s2 ->
  normalize_phone (Some s1) = normalize_phone (Some s2).
Proof. intros H. rewrite !normalize_phone_digits. by rewrite H. Qed.

Lemma normalize_phone_separators_witness :
  normalize_phone (Some "(98765) 432-10"%string)
  = normalize_phone (Some "98 76 54 32 10"%string).
Proof. apply normalize_phone_separators. reflexivity. Defined.

(** ** Dates, again *)

Lemma all_space_collapse b s :
  PyStr.all PyStr.is_space s = true <->
  PyStr.all PyStr.is_space (PyStr.collapse_spaces b s) = true.
Proof.
  revert b. induction s as [|c s IH]; intros b; simpl; [done|].
  destruct (PyStr.is_space c) eqn:E; [destruct b|]; simpl; rewrite ?E; simpl;
    [apply IH | apply IH | done].
Qed.

Lemma all_space_lstrip s :
  PyStr.all PyStr.is_space s = true -> PyStr.lstrip s = EmptyString.
Proof.
  induction s as [|c s IH]; simpl; [done|].
  intros [Hc Hs]%andb_true_iff. rewrite Hc. by apply IH.
Qed.

Lemma blank_normalize_spaces s :
  PyStr.is_empty (PyStr.strip (normalize_spaces (Some s)))
  = PyStr.is_empty (PyStr.strip s).
Proof.
  rewrite normalize_spaces_stripped.
  destruct (PyStr.is_empty (PyStr.strip s)) eqn:E.
  - apply strip_empty in E. apply (all_space_collapse false) in E.
    unfold normalize_spaces, PyStr.strip.
    by rewrite (all_space_lstrip _ E).
  - destruct (PyStr.is_empty (normalize_spaces (Some s))) eqn:E'; [|done].
    unfold normalize_spaces in E'. apply strip_empty in E'.
    apply all_space_collapse in E'.
    unfold PyStr.strip in E. by rewrite (all_space_lstrip _ E') in E.
Qed.

(** X6. [parse_flex_date] sees its input only through [normalize_spaces]:
    surrounding and repeated white space never changes the result. *)
Theorem parse_flex_date_white_space
    (to_datetime_ymd : string -> option date)
    (to_datetime : bool -> string -> option date) (raw : string) :
  parse_flex_date to_datetime_ymd to_datetime (Some (normalize_spaces (Some raw)))
  = parse_flex_date to_datetime_ymd to_datetime (Some raw).
Proof.
  unfold parse_flex_date.
  rewrite blank_normalize_spaces.
  destruct (PyStr.is_empty (PyStr.strip raw)); [done|].
  by rewrite normalize_spaces_fixed.
Qed.

(** X7. A three-part text whose first part has four characters is read
    year-first: by the explicit year-month-day format, and, when that
    fails, by the generic parser, except for a text of the exact shape
    YYYY-MM-DD, for which a failure of the explicit format is final. *)
Theorem parse_flex_date_year_first
    (to_datetime_ymd : string -> option date)
    (to_datetime : bool -> string -> option date)
    (raw : string) (delim : ascii) (a b c : string) :
  PyStr.is_empty (PyStr.strip raw) = false ->
  identify_delim (normalize_spaces (Some raw)) = Some delim ->
  PyStr.split delim (normalize_spaces (Some raw)) = [a; b; c] ->
  String.length a = 4%nat ->
  parse_flex_date to_datetime_ymd to_datetime (Some raw)
  = match to_datetime_ymd (normalize_spaces (Some raw)) with
    | Some d => Some d
    | None =>
        if matches_iso_date (normalize_spaces (Some raw)) then None
        else to_datetime false (normalize_spaces (Some raw))
    end.
Proof.
  intros Hblank Hdelim Hsplit Hlen. unfold parse_flex_date. rewrite Hblank.
  destruct (matches_iso_date (normalize_spaces (Some raw))).
  - by destruct (to_datetime_ymd _).
  - rewrite Hdelim, Hsplit. apply Nat.eqb_eq in Hlen. by rewrite Hlen.
Qed.

Lemma parse_flex_date_year_first_witness :
  parse_flex_date Pandas.to_datetime_ymd Pandas.to_datetime
                  (Some " 2024/03/05 "%string)
  = Some (Date 2024 3 5).
Proof.
  rewrite (parse_flex_date_year_first Pandas.to_datetime_ymd Pandas.to_datetime
             " 2024/03/05 " "/" "2024" "03" "05"); by vm_compute.
Defined.

(** ** Hundredths, again *)

(** X8. [to_decimal_2] is symmetric about zero, and leaves alone a value
    that already has two fractional digits. *)
Theorem to_decimal_2_symmetric_fixed (x : Q) (d : Decimal2) :
  cents (to_decimal_2 (- x)) = - cents (to_decimal_2 x)
  /\ to_decimal_2 (Decimal2_value d) = d.
Proof.
  split.
  - unfold to_decimal_2, round_half_up. destruct x as [n p].
    cbn [cents Qmult Qopp Qnum Qden].
    rewrite Z.mul_opp_l, Z.sgn_opp, Z.abs_opp. lia.
  - destruct d as [c]. unfold to_decimal_2, Decimal2_value. cbn [cents].
    f_equal.
    change ((c # 100) * 100)%Q with (c * Z.pos 100 # 100 * 1).
    change (100 * 1)%positive with 100%positive.
    apply round_half_up_integer.
Qed.

(** ** Every way out of [run_etl] *)


(** X10. What a run that does not raise leaves in the store, and what it
    reports, does not depend on what the store held before: the load
    replaces the earlier content, and loading the same files again
    changes nothing. *)
Theorem run_etl_replaces_store
    (to_numeric : string -> option Q)
    (to_datetime_ymd : string -> option date)
    (to_datetime : bool -> string -> option date)
    (db_fails db_fails' : nat -> DB.stmt -> DB.store -> bool)
    (customers : list Customers.csv) (products : list Products.csv)
    (sales : list Sales.csv) (db db' : DB.store) :
  let r := run_etl to_numeric to_datetime_ymd to_datetime db_fails
             customers products sales db in
  let r' := run_etl to_numeric to_datetime_ymd to_datetime db_fails'
              customers products sales db' in
  raised r = None -> raised r' = None ->
  DB.committed (connection r') = DB.committed (connection r)
  /\ report_file r' = report_file r.
Proof.
  intros r r' Hok Hok'.
  destruct (run_etl_Ok _ _ _ _ _ _ _ _ Hok) as (Hst & Hrep).
  destruct (run_etl_Ok _ _ _ _ _ _ _ _ Hok') as (Hst' & Hrep').
  fold r in Hst, Hrep. fold r' in Hst', Hrep'.
  split; congruence.
Qed.

Lemma run_etl_replaces_store_witness :
  let again :=
    run_etl PandasNumeric.to_numeric Pandas.to_datetime_ymd Pandas.to_datetime
            (fun _ _ _ => false) example_customers example_products
            example_sales (DB.committed (connection example_run)) in
  DB.committed (connection again) = DB.committed (connection example_run).
Proof.
  intros again.
  assert (raised example_run = None) as Hok by (by vm_compute).
  assert (raised again = None) as Hok' by (by vm_compute).
  by destruct (run_etl_replaces_store _ _ _ _ _ _ _ _ _ _ Hok Hok').
Defined.

(** ** Keys of the loaded tables *)

Lemma number_from_elem {A} (a : Z) (l : list A) k x :
  (k, x) ∈ number_from a l <->
  exists j, l !! j = Some x /\ k = a + Z.of_nat j.
Proof.
  revert a. induction l as [|y l IH]; intros a; simpl.
  - split; [by intros ?%elem_of_nil | by intros (j & ? & _)].
  - rewrite elem_of_cons, IH. split.
    + intros [[= -> ->]|(j & Hj & ->)].
      * exists 0%nat. split; [done|lia].
      * exists (S j). split; [done|lia].
    + intros ([|j] & Hj & ->); simpl in Hj.
      * left. injection Hj as ->. f_equal. lia.
      * right. exists j. split; [done|lia].
Qed.

Lemma number_from_keys {A} (a : Z) (l : list A) :
  (number_from a l).*1 = (fun j => a + Z.of_nat j) <$> seq 0 (length l).
Proof.
  revert a. induction l as [|y l IH]; intros a; simpl; [done|].
  f_equal; [lia|]. rewrite IH, <- seq_shift, <- list_fmap_compose.
  apply list_fmap_ext. intros _ j _. simpl. lia.
Qed.

Lemma number_from_NoDup {A} (a : Z) (l : list A) : NoDup (number_from a l).*1.
Proof.
  rewrite number_from_keys. apply NoDup_fmap_2; [|apply NoDup_seq].
  intros i j. lia.
Qed.

(** X11. After a run that does not raise, the store is referentially
    sound: in each table the keys are distinct, every order names the key
    of a loaded customer, and every order item names the key of a loaded
    order and that of a loaded product. *)
Theorem loaded_store_references
    (to_numeric : string -> option Q)
    (to_datetime_ymd : string -> option date)
    (to_datetime : bool -> string -> option date)
    (db_fails : nat -> DB.stmt -> DB.store -> bool)
    (customers : list Customers.csv) (products : list Products.csv)
    (sales : list Sales.csv) (db : DB.store) :
  let r := run_etl to_numeric to_datetime_ymd to_datetime db_fails
             customers products sales db in
  let st := DB.committed (connection r) in
  raised r = None ->
  NoDup (DB.rows (DB.customers st)).*1
  /\ NoDup (DB.rows (DB.products st)).*1
  /\ NoDup (DB.rows (DB.orders st)).*1
  /\ NoDup (DB.rows (DB.order_items st)).*1
  /\ (forall k o, (k, o) ∈ DB.rows (DB.orders st) ->
        DB.customer_id o ∈ (DB.rows (DB.customers st)).*1)
  /\ (forall k i, (k, i) ∈ DB.rows (DB.order_items st) ->
        DB.order_id i ∈ (DB.rows (DB.orders st)).*1
        /\ DB.product_id i ∈ (DB.rows (DB.products st)).*1).
Proof.
  intros r st Hok.
  destruct (run_etl_Ok _ _ _ _ _ _ _ _ Hok) as (Hst & _).
  fold r in Hst. fold st in Hst.
  set (cs := cleaned_customers to_datetime_ymd to_datetime customers) in *.
  set (ps := cleaned_products to_numeric products) in *.
  set (ss := cleaned_sales to_numeric to_datetime_ymd to_datetime
               customers products sales) in *.
  set (cm := key_map 1 (Customers.customer_id <$> cs) ∅) in *.
  set (pm := key_map 1 ((Products.product_id ∘ Products.columns) <$> ps) ∅) in *.
  assert (NoDup (Customers.customer_id <$> cs)) as Hcs
    by apply cleaned_customers_NoDup.
  assert (NoDup ((Products.product_id ∘ Products.columns) <$> ps)) as Hps
    by apply cleaned_products_NoDup.
  rewrite Hst. unfold insert_rows.
  cbn [DB.customers DB.products DB.orders DB.order_items DB.rows DB.truncate app].
  change (DB.auto_increment DB.truncate) with 1.
  repeat (split; [apply number_from_NoDup|]).
  assert (forall s, s ∈ ss ->
            default 0 (cm !! Sales.customer_id (Sales.columns s))
              ∈ (number_from 1 (customer_values <$> cs)).*1
            /\ default 0 (pm !! Sales.product_id (Sales.columns s))
                 ∈ (number_from 1 (product_values <$> ps)).*1) as Hkeys.
  { intros s Hs.
    destruct (integrity_filter_loadable cs ps _ s Hcs Hps Hs)
      as (ci & pi & Hci & Hpi & Hcm & Hpm & _).
    unfold cm, pm. rewrite Hcm, Hpm. cbn [default].
    apply list_lookup_fmap_Some in Hci as (cust & _ & Hcust).
    apply list_lookup_fmap_Some in Hpi as (prod & _ & Hprod).
    split; apply list_elem_of_fmap.
    - exists (1 + Z.of_nat ci, customer_values cust). split; [done|].
      apply number_from_elem. exists ci. split; [|done].
      apply list_lookup_fmap_Some. by exists cust.
    - exists (1 + Z.of_nat pi, product_values prod). split; [done|].
      apply number_from_elem. exists pi. split; [|done].
      apply list_lookup_fmap_Some. by exists prod. }
  split.
  - intros k o (j & Hj & _)%number_from_elem.
    apply list_lookup_fmap_Some in Hj as (s & -> & Hs).
    apply list_elem_of_lookup_2 in Hs. by apply Hkeys.
  - intros k i (j & Hj & _)%number_from_elem.
    assert (exists s, ss !! j = Some s
                      /\ i = item_of pm (1 + Z.of_nat j) s) as (s & Hs & ->).
    { destruct (ss !! j) as [s|] eqn:Hs.
      - exists s. split; [done|].
        rewrite (items_from_lookup pm 1 ss j s Hs) in Hj. by injection Hj.
      - apply lookup_ge_None in Hs.
        apply lookup_lt_Some in Hj. rewrite length_items_from in Hj. lia. }
    cbn [item_of DB.order_id DB.product_id]. split.
    + apply list_elem_of_fmap.
      exists (1 + Z.of_nat j, order_of cm s). split; [done|].
      apply number_from_elem. exists j. split; [|done].
      apply list_lookup_fmap_Some. by exists s.
    + apply list_elem_of_lookup_2 in Hs. by apply Hkeys.
Qed.

Lemma loaded_store_references_witness :
  NoDup (DB.rows (DB.orders (DB.committed (connection example_run)))).*1
  /\ Forall (fun ko =>
               DB.customer_id ko.2
                 ∈ (DB.rows (DB.customers
                               (DB.committed (connection example_run)))).*1)
            (DB.rows (DB.orders (DB.committed (connection example_run)))).
Proof.
  assert (raised example_run = None) as Hok by (by vm_compute).
  destruct (loaded_store_references _ _ _ _ _ _ _ _ Hok)
    as (_ & _ & Hnd & _ & H & _).
  split; [exact Hnd|].
  apply Forall_forall. intros [k o] Hin. exact (H k o Hin).
Defined.

(** ** What reaches the load step *)

Lemma to_lower_not_upper c : PyStr.is_upper (PyStr.to_lower c) = false.
Proof. destruct c as [[] [] [] [] [] [] [] []]; reflexivity. Qed.

Lemma lower_no_upper s :
  PyStr.all (fun c => negb (PyStr.is_upper c)) (PyStr.lower s) = true.
Proof.
  unfold PyStr.lower. induction s as [|c s IH]; [done|]. simpl.
  by rewrite to_lower_not_upper, IH.
Qed.

Lemma lower_app (s t : string) :
  PyStr.lower (s ++ t) = (PyStr.lower s ++ PyStr.lower t)%string.
Proof.
  unfold PyStr.lower. induction s as [|c s IH]; [done|].
  change (String c s ++ t)%string with (String c (s ++ t)).
  cbn [PyStr.map]. rewrite IH. reflexivity.
Qed.

(** X12. Every customer that reaches the load step has an email that is
    not empty and holds no upper-case letter: the given one in lower
    case, or else the placeholder made from the customer key. *)
Theorem cleaned_customer_email
    (to_datetime_ymd : string -> option date)
    (to_datetime : bool -> string -> option date)
    (customers : list Customers.csv) (c : Customers.clean) :
  c ∈ cleaned_customers to_datetime_ymd to_datetime customers ->
  PyStr.is_empty (Customers.email c) = false
  /\ PyStr.all (fun x => negb (PyStr.is_upper x)) (Customers.email c) = true
  /\ exists raw,
       raw ∈ (Customers.applymap normalize_spaces <$> customers)
       /\ Customers.customer_id c = Customers.customer_id raw
       /\ Customers.email c
          = (if PyStr.is_empty (Customers.email raw)
             then "unknown+" ++ PyStr.lower (Customers.customer_id raw)
                  ++ "@fleximart.local"
             else PyStr.lower (Customers.email raw))%string.
Proof.
  unfold cleaned_customers, clean_customers, dedup_customers.
  intros (raw & -> & Hraw)%list_elem_of_fmap.
  assert (raw ∈ (Customers.applymap normalize_spaces <$> customers)) as Hin.
  { eapply elem_of_sublist; [exact Hraw|]. apply drop_duplicates_sublist. }
  unfold clean_customer, missing_email, placeholder_email.
  cbn [Customers.email Customers.customer_id].
  split; [|split; [apply lower_no_upper|]].
  - rewrite is_empty_lower.
    by destruct (PyStr.is_empty (Customers.email raw)) eqn:E.
  - exists raw. split; [done|]. split; [done|].
    destruct (PyStr.is_empty (Customers.email raw)); [|done].
    by rewrite !lower_app, lower_lower.
Qed.

Lemma cleaned_customer_email_witness :
  exists c,
    c ∈ cleaned_customers Pandas.to_datetime_ymd Pandas.to_datetime
          example_customers
    /\ Customers.email c = "unknown+c001@fleximart.local"%string.
Proof.
  set (c := (Customers.Row "C001" "Ann" "Lee" "unknown+c001@fleximart.local"
               (Some "+91-9876543210") "Mumbai" (Some (Date 2024 1 5)))%string).
  assert (c ∈ cleaned_customers Pandas.to_datetime_ymd Pandas.to_datetime
                example_customers) as Hc
    by (vm_compute; apply list_elem_of_here).
  destruct (cleaned_customer_email _ _ _ _ Hc) as (_ & _ & _).
  by exists c.
Defined.





(** ** The imputed price *)

Lemma median_from_values l m :
  median l = Some m ->
  m ∈ l \/ exists a b, a ∈ l /\ b ∈ l /\ m = ((a + b) / 2)%Q.
Proof.
  unfold median. pose proof (sort_Q_perm l) as Hperm.
  set (s := sort_Q l) in *. clearbody s.
  destruct (length s =? 0)%nat; [done|].
  destruct (Nat.odd (length s)).
  - intros Hm. left. rewrite <- Hperm. by apply list_elem_of_lookup_2 in Hm.
  - destruct (s !! (length s `div` 2 - 1)%nat) as [a|] eqn:Ha; [|done].
    destruct (s !! (length s `div` 2)%nat) as [b|] eqn:Hb; [|done].
    intros [= <-]. right. exists a, b.
    apply list_elem_of_lookup_2 in Ha. apply list_elem_of_lookup_2 in Hb.
    rewrite <- Hperm. done.
Qed.

(** X15. The median of a group lies within the range of its values, so an
    imputed price is never below the cheapest nor above the dearest of
    the priced products of its category. *)
Theorem median_within_range (frame : list Products.priced) (cat : string)
    (lo hi m : Q) :
  (forall x, x ∈ peer_prices frame cat -> (lo <= x <= hi)%Q) ->
  medians frame cat = Some m ->
  (lo <= m <= hi)%Q.
Proof.
  intros Hrange Hm. unfold medians in Hm.
  apply median_from_values in Hm as [Hin|(a & b & Ha & Hb & ->)].
  - by apply Hrange.
  - destruct (Hrange a Ha) as [Ha1 Ha2]. destruct (Hrange b Hb) as [Hb1 Hb2].
    split.
    + apply Qle_shift_div_l; [reflexivity|]. lra.
    + apply Qle_shift_div_r; [reflexivity|]. lra.
Qed.

Lemma median_within_range_witness :
  (100 <= 400 # 2 <= 300)%Q.
Proof.
  apply (median_within_range
           (priced_products PandasNumeric.to_numeric
              (Products.applymap normalize_spaces <$> fashion_products))
           "Fashion" 100 300 (400 # 2)).
  - intros x Hx. vm_compute in Hx.
    apply elem_of_cons in Hx as [->|Hx]; [split; discriminate|].
    apply elem_of_cons in Hx as [->|Hx]; [split; discriminate|].
    by apply elem_of_nil in Hx.
  - vm_compute. reflexivity.
Defined.

(** ** The warehouse fixture generator *)

Lemma sql_escape_inj s1 s2 :
  Warehouse.sql_escape s1 = Warehouse.sql_escape s2 -> s1 = s2.
Proof.
  revert s2. induction s1 as [|c1 s1 IH]; intros [|c2 s2]; simpl.
  - done.
  - by destruct (Ascii.eqb c2 "'").
  - by destruct (Ascii.eqb c1 "'").
  - destruct (Ascii.eqb_spec c1 "'") as [->|H1];
      destruct (Ascii.eqb_spec c2 "'") as [->|H2].
    + intros [= H]. by rewrite (IH _ H).
    + intros [= <- _]. done.
    + intros [= -> _]. done.
    + intros [= -> H]. by rewrite (IH _ H).
Qed.

Lemma append_inv_tail (s1 s2 t : string) :
  (s1 ++ t = s2 ++ t)%string -> s1 = s2.
Proof.
  intros H.
  assert (String.length s1 = String.length s2) as Hlen.
  { apply (f_equal String.length) in H. rewrite !length_app_string in H. lia. }
  revert s2 H Hlen. induction s1 as [|c1 s1 IH]; intros [|c2 s2] H Hlen;
    try done.
  change ((String c1 (s1 ++ t)) = (String c2 (s2 ++ t)))%string in H.
  injection H as -> H. f_equal. apply IH; [done|]. simpl in Hlen. lia.
Qed.

(** X16. Escaping loses nothing: two different texts never get the same
    escaped form, nor the same quoted literal. *)
Theorem sql_str_injective (s1 s2 : string) :
  s1 <> s2 ->
  Warehouse.sql_escape s1 <> Warehouse.sql_escape s2
  /\ Warehouse.sql_str s1 <> Warehouse.sql_str s2.
Proof.
  intros Hne. split; intros H; apply Hne.
  - by apply sql_escape_inj.
  - unfold Warehouse.sql_str in H.
    change ("'" ++ ?x ++ "'")%string with (String "'" (x ++ "'")) in H.
    injection H as H. by apply sql_escape_inj, (append_inv_tail _ _ "'").
Qed.

Lemma sql_str_injective_witness :
  Warehouse.sql_escape "Levi's" <> Warehouse.sql_escape "Levi''s"
  /\ Warehouse.sql_str "Levi's" <> Warehouse.sql_str "Levi''s".
Proof. apply sql_str_injective. discriminate. Defined.

(** X17. Escaping doubles every single quote and touches nothing else:
    the other characters stay as they are and in their order, the number
    of quotes doubles, and the text grows by one character per quote. *)
Theorem sql_escape_doubles_quotes (s : string) :
  PyStr.filter (fun c => negb (Ascii.eqb c "'")) (Warehouse.sql_escape s)
  = PyStr.filter (fun c => negb (Ascii.eqb c "'")) s
  /\ String.length (PyStr.filter (fun c => Ascii.eqb c "'") (Warehouse.sql_escape s))
     = (2 * String.length (PyStr.filter (fun c => Ascii.eqb c "'") s))%nat
  /\ String.length (Warehouse.sql_escape s)
     = (String.length s
        + String.length (PyStr.filter (fun c => Ascii.eqb c "'") s))%nat.
Proof.
  induction s as [|c s (IH1 & IH2 & IH3)]; [done|].
  simpl. destruct (Ascii.eqb c "'") eqn:E; simpl; rewrite ?E; simpl.
  - rewrite IH1, IH2, IH3. repeat split; lia.
  - rewrite IH1, IH2, IH3. repeat split; lia.
Qed.

Lemma lstrip_no_space s :
  PyStr.all (fun c => negb (PyStr.is_space c)) s = true -> PyStr.lstrip s = s.
Proof.
  destruct s as [|c s]; simpl; [done|].
  intros [Hc _]%andb_true_iff. by destruct (PyStr.is_space c).
Qed.

Lemma rstrip_no_space s :
  PyStr.all (fun c => negb (PyStr.is_space c)) s = true -> PyStr.rstrip s = s.
Proof.
  induction s as [|c s IH]; simpl; [done|].
  intros [Hc Hs]%andb_true_iff. rewrite (IH Hs).
  destruct s; [by destruct (PyStr.is_space c)|done].
Qed.

Lemma all_impl (p q : ascii -> bool) s :
  (forall c, p c = true -> q c = true) ->
  PyStr.all p s = true -> PyStr.all q s = true.
Proof.
  intros Hpq. induction s as [|c s IH]; simpl; [done|].
  intros [Hc Hs]%andb_true_iff. by rewrite (Hpq _ Hc), IH.
Qed.

Lemma int_digits_all acc b s :
  PyStr.all PyStr.is_digit s = true -> (s <> EmptyString \/ b = true) ->
  int_digits acc b s = Some (PandasNumeric.digits_acc acc s).
Proof.
  revert acc b. induction s as [|c s IH]; intros acc b; simpl.
  - intros _ [H| ->]; done.
  - intros [Hc Hs]%andb_true_iff _. rewrite Hc. apply IH; [done|by right].
Qed.

(** [int] on a run of digits: its decimal value. *)
Lemma int_of_digits s :
  PyStr.all PyStr.is_digit s = true -> s <> EmptyString ->
  int s = Some (PandasNumeric.digits_acc 0 s).
Proof.
  intros Hd Hne. unfold int, PyStr.strip.
  assert (PyStr.all (fun c => negb (PyStr.is_space c)) s = true) as Hsp.
  { apply (all_impl PyStr.is_digit); [|done].
    intros c Hc. by rewrite (is_digit_not_space c Hc). }
  rewrite (lstrip_no_space _ Hsp), (rstrip_no_space _ Hsp).
  rewrite <- (int_digits_all 0 false s Hd (or_introl Hne)).
  destruct s as [|c s]; [done|].
  simpl in Hd. apply andb_true_iff in Hd as [Hc _].
  destruct c as [[] [] [] [] [] [] [] []]; try discriminate Hc; reflexivity.
Qed.

Lemma digit_char_spec k :
  0 <= k <= 9 ->
  PyStr.is_digit (Warehouse.digit_char k) = true
  /\ Z.of_nat (PyStr.code (Warehouse.digit_char k)) - 48 = k.
Proof.
  intros Hk.
  assert (k = 0 \/ k = 1 \/ k = 2 \/ k = 3 \/ k = 4 \/ k = 5 \/ k = 6
          \/ k = 7 \/ k = 8 \/ k = 9) as H by lia.
  repeat destruct H as [->|H]; try subst k; by vm_compute.
Qed.

(** X18. For a calendar date with a four-digit year, [date_key] is the
    number [yyyymmdd]; the year, month and day can be read back from it. *)
Theorem date_key_yyyymmdd (d : date) :
  1000 <= year d <= 9999 -> 1 <= month d <= 12 -> 1 <= day d <= 31 ->
  exists k,
    Warehouse.date_key d = Some k
    /\ k = year d * 10000 + month d * 100 + day d
    /\ year d = k / 10000
    /\ month d = (k / 100) mod 100
    /\ day d = k mod 100.
Proof.
  intros Hy Hm Hd.
  set (y := year d) in *. set (m := month d) in *. set (dd := day d) in *.
  assert (forall n, 0 <= n <= 99 -> 0 <= n / 10 <= 9 /\ 0 <= n mod 10 <= 9
                                    /\ n = 10 * (n / 10) + n mod 10) as Hsplit.
  { intros n Hn. pose proof (Z.div_mod n 10). pose proof (Z.mod_pos_bound n 10).
    lia. }
  assert (0 <= y / 100 <= 99 /\ 0 <= y mod 100 <= 99
          /\ y = 100 * (y / 100) + y mod 100) as (Hy1 & Hy2 & Hy3).
  { pose proof (Z.div_mod y 100). pose proof (Z.mod_pos_bound y 100). lia. }
  destruct (Hsplit _ Hy1) as (B1 & B2 & E12).
  destruct (Hsplit _ Hy2) as (B3 & B4 & E34).
  destruct (Hsplit m) as (B5 & B6 & E56); [lia|].
  destruct (Hsplit dd) as (B7 & B8 & E78); [lia|].
  destruct (digit_char_spec _ B1) as (D1 & V1).
  destruct (digit_char_spec _ B2) as (D2 & V2).
  destruct (digit_char_spec _ B3) as (D3 & V3).
  destruct (digit_char_spec _ B4) as (D4 & V4).
  destruct (digit_char_spec _ B5) as (D5 & V5).
  destruct (digit_char_spec _ B6) as (D6 & V6).
  destruct (digit_char_spec _ B7) as (D7 & V7).
  destruct (digit_char_spec _ B8) as (D8 & V8).
  assert (Warehouse.date_key d = Some (y * 10000 + m * 100 + dd)) as Hkey.
  { unfold Warehouse.date_key. rewrite int_of_digits.
    - f_equal.
      cbv [Warehouse.strftime_Ymd Warehouse.four_digits Warehouse.two_digits
           String.append].
      fold y m dd. cbn [PandasNumeric.digits_acc].
      rewrite V1, V2, V3, V4, V5, V6, V7, V8. lia.
    - cbv [Warehouse.strftime_Ymd Warehouse.four_digits Warehouse.two_digits
           String.append].
      fold y m dd. cbn [PyStr.all].
      by rewrite D1, D2, D3, D4, D5, D6, D7, D8.
    - cbv [Warehouse.strftime_Ymd Warehouse.four_digits Warehouse.two_digits
           String.append]. done. }
  exists (y * 10000 + m * 100 + dd). split; [done|]. split; [done|].
  repeat split.
  - apply (Z.div_unique _ _ _ (m * 100 + dd)); lia.
  - replace ((y * 10000 + m * 100 + dd) / 100) with (y * 100 + m)
      by (apply (Z.div_unique _ _ _ dd); lia).
    apply (Z.mod_unique _ _ y); lia.
  - apply (Z.mod_unique _ _ (y * 100 + m)); lia.
Qed.

Lemma date_key_yyyymmdd_witness :
  exists k, Warehouse.date_key (Date 2024 2 13) = Some k
    /\ k = 2024 * 10000 + 2 * 100 + 13
    /\ 2024 = k / 10000 /\ 2 = (k / 100) mod 100 /\ 13 = k mod 100.
Proof.
  apply (date_key_yyyymmdd (Date 2024 2 13)); simpl; lia.
Defined.

(** X19. On the months of a year, [quarter] names the calendar quarter:
    [Q1] for January to March, up to [Q4] for October to December. *)
Theorem quarter_of_month (m : Z) :
  1 <= m <= 12 ->
  Warehouse.quarter m
  = if m <=? 3 then "Q1"%string else if m <=? 6 then "Q2"%string
    else if m <=? 9 then "Q3"%string else "Q4"%string.
Proof.
  intros Hm.
  assert (m = 1 \/ m = 2 \/ m = 3 \/ m = 4 \/ m = 5 \/ m = 6 \/ m = 7
          \/ m = 8 \/ m = 9 \/ m = 10 \/ m = 11 \/ m = 12) as H by lia.
  repeat destruct H as [->|H]; try subst m; by vm_compute.
Qed.

Lemma quarter_of_month_witness :
  Warehouse.quarter 7
  = if 7 <=? 3 then "Q1"%string else if 7 <=? 6 then "Q2"%string
    else if 7 <=? 9 then "Q3"%string else "Q4"%string.
Proof. apply (quarter_of_month 7). lia. Defined.

Lemma weighted_date_keys_cons r rows :
  Warehouse.weighted_date_keys (r :: rows)
  = replicate (if Warehouse.is_weekend r =? 1 then 3%nat else 1%nat)
              (Warehouse.dd_date_key r)
    ++ Warehouse.weighted_date_keys rows.
Proof. done. Qed.

Lemma elem_of_weighted_date_keys rows k :
  k ∈ Warehouse.weighted_date_keys rows
  <-> exists r, r ∈ rows /\ Warehouse.dd_date_key r = k.
Proof.
  unfold Warehouse.weighted_date_keys. rewrite list_elem_of_bind. split.
  - intros (r & Hk & Hr). exists r. split; [done|].
    by apply elem_of_replicate in Hk as [-> _].
  - intros (r & Hr & <-). exists r. split; [|done].
    apply elem_of_replicate. split; [done|].
    by destruct (Warehouse.is_weekend r =? 1).
Qed.

Lemma length_filter_replicate (n : nat) (x k : Z) :
  length (filter (fun y => y = k) (replicate n x))
  = if decide (x = k) then n else 0%nat.
Proof.
  induction n as [|n IH]; simpl; [by destruct (decide (x = k))|].
  rewrite filter_cons. destruct (decide (x = k)); simpl; by rewrite IH.
Qed.

(** X20. [weighted_date_keys] holds exactly the keys of the date rows; a
    key occurs once for each row that has it, and twice more for each such
    row flagged as a weekend.  So the list has one entry per row and two
    more per weekend row. *)
Theorem weighted_date_keys_weights (rows : list Warehouse.dim_date) (k : Z) :
  let w := Warehouse.weighted_date_keys rows in
  (k ∈ w <-> exists r, r ∈ rows /\ Warehouse.dd_date_key r = k)
  /\ length (filter (fun x => x = k) w)
     = Nat.add
         (length (filter (fun r => Warehouse.dd_date_key r = k) rows))
         (Nat.mul 2
            (length (filter (fun r => Warehouse.dd_date_key r = k
                                      /\ Warehouse.is_weekend r = 1) rows)))
  /\ length w
     = Nat.add
         (length rows)
         (Nat.mul 2
            (length (filter (fun r => Warehouse.is_weekend r = 1) rows))).
Proof.
  cbv zeta. split; [apply elem_of_weighted_date_keys|]. split.
  - induction rows as [|r rows IH]; [done|].
    rewrite weighted_date_keys_cons, filter_app, length_app, IH.
    rewrite length_filter_replicate, !filter_cons.
    destruct (decide (Warehouse.dd_date_key r = k)) as [Hk|Hk].
    + destruct (Z.eqb_spec (Warehouse.is_weekend r) 1) as [Hw|Hw].
      * rewrite decide_True by done. simpl. lia.
      * rewrite decide_False by tauto. simpl. lia.
    + rewrite decide_False by tauto. simpl. lia.
  - induction rows as [|r rows IH]; [done|].
    rewrite weighted_date_keys_cons, length_app, length_replicate, IH.
    rewrite filter_cons.
    destruct (Z.eqb_spec (Warehouse.is_weekend r) 1) as [Hw|Hw].
    + rewrite decide_True by done. simpl. lia.
    + rewrite decide_False by done. simpl. lia.
Qed.

Lemma choice_elem {A} (draw : nat -> nat) k (l : list A) x :
  Warehouse.choice draw k l = Some x -> x ∈ l.
Proof.
  unfold Warehouse.choice. destruct l as [|a l]; [done|].
  apply list_elem_of_lookup_2.
Qed.

Lemma choice_is_Some {A} (draw : nat -> nat) k (l : list A) :
  is_Some (Warehouse.choice draw k l) <-> l <> [].
Proof.
  unfold Warehouse.choice. destruct l as [|a l]; split; try done;
    try by intros [? ?].
  - intros _. apply lookup_lt_is_Some. by apply Nat.mod_upper_bound.
Qed.

Lemma elem_of_keys_upto n k :
  k ∈ Warehouse.keys_upto n <-> 1 <= k <= Z.of_nat n.
Proof.
  unfold Warehouse.keys_upto. rewrite list_elem_of_fmap. split.
  - intros (i & -> & Hi%elem_of_seq). lia.
  - intros Hk. exists (Z.to_nat (k - 1)). split; [lia|].
    apply elem_of_seq. lia.
Qed.

Lemma getitem_in_range {A} (l : list A) i :
  0 <= i < Z.of_nat (length l) -> is_Some (Warehouse.getitem l i).
Proof.
  intros Hi. unfold Warehouse.getitem.
  destruct (Z.ltb_spec i 0); [lia|]. apply lookup_lt_is_Some. lia.
Qed.

Lemma is_weekend_of_key rows dk :
  dk ∈ Warehouse.weighted_date_keys rows ->
  exists r, r ∈ rows /\ Warehouse.dd_date_key r = dk
            /\ Warehouse.is_weekend_of rows dk = Some (Warehouse.is_weekend r).
Proof.
  intros (r & Hr & Hk)%elem_of_weighted_date_keys.
  unfold Warehouse.is_weekend_of.
  destruct (filter (fun r => Warehouse.dd_date_key r = dk) rows)
    as [|r0 l] eqn:E.
  - assert (r ∈ filter (fun r => Warehouse.dd_date_key r = dk) rows) as Hin
      by by apply list_elem_of_filter.
    rewrite E in Hin. by apply elem_of_nil in Hin.
  - assert (r0 ∈ filter (fun r => Warehouse.dd_date_key r = dk) rows) as Hin
      by (rewrite E; apply elem_of_cons; by left).
    apply list_elem_of_filter in Hin as [Hk0 Hr0]. by exists r0.
Qed.

Lemma option_bind_Some {A B} (x : A) (f : A -> option B) :
  Some x ≫= f = f x.
Proof. done. Qed.

Lemma make_fact_ok draw rows products customers i :
  rows <> [] -> products <> [] -> customers <> [] ->
  exists f, Warehouse.make_fact draw rows products customers i = Some f
            /\ fact_ok rows products customers f.
Proof.
  intros Hrows Hps Hcs. unfold Warehouse.make_fact.
  assert (Warehouse.weighted_date_keys rows <> []) as Hw.
  { destruct rows as [|r rows]; [done|]. rewrite weighted_date_keys_cons.
    by destruct (Warehouse.is_weekend r =? 1). }
  assert (Warehouse.keys_upto (length products) <> []) as Hpk
    by by destruct products.
  assert (Warehouse.keys_upto (length customers) <> []) as Hck
    by by destruct customers.
  destruct (proj2 (choice_is_Some draw (5 * i) _) Hw) as [dk Hdk].
  destruct (proj2 (choice_is_Some draw (5 * i + 1) _) Hpk) as [pk Hpk'].
  destruct (proj2 (choice_is_Some draw (5 * i + 2) _) Hck) as [ck Hck'].
  destruct (fun H => proj2 (choice_is_Some draw (5 * i + 3)
                              [1; 1; 1; 2; 2; 3; 4]) H) as [qty Hq]; [done|].
  pose proof (proj1 (elem_of_keys_upto _ _) (choice_elem _ _ _ _ Hpk')) as Bp.
  pose proof (proj1 (elem_of_keys_upto _ _) (choice_elem _ _ _ _ Hck')) as Bc.
  destruct (getitem_in_range products (pk - 1)) as [p Hp]; [lia|].
  destruct (is_weekend_of_key rows dk (choice_elem _ _ _ _ Hdk))
    as (r & Hr & Hrk & Hwk).
  rewrite Hdk, option_bind_Some, Hpk', option_bind_Some, Hck',
    option_bind_Some, Hp, option_bind_Some, Hq, option_bind_Some, Hwk,
    option_bind_Some.
  assert (1 <= qty <= 4) as Bq.
  { apply choice_elem in Hq. rewrite !elem_of_cons, elem_of_nil in Hq. lia. }
  assert (products !! Z.to_nat (pk - 1) = Some p) as Hp'.
  { unfold Warehouse.getitem in Hp. by destruct (Z.ltb_spec (pk - 1) 0); [lia|]. }
  destruct (Z.eqb_spec (Warehouse.is_weekend r) 0) as [Hz|Hz].
  - destruct (fun H => proj2 (choice_is_Some draw (5 * i + 4)
                                [0; 0; 5 # 100]%Q) H) as [rate Hrate]; [done|].
    rewrite Hrate, option_bind_Some. eexists. split; [reflexivity|].
    apply choice_elem in Hrate. rewrite !elem_of_cons, elem_of_nil in Hrate.
    unfold fact_ok. cbn [Warehouse.date_key_of Warehouse.product_key
      Warehouse.customer_key Warehouse.quantity_sold Warehouse.unit_price
      Warehouse.discount_amount Warehouse.total_amount].
    split; [by exists r|]. split; [lia|]. split; [lia|].
    split; [by exists p|]. split; [lia|].
    exists rate. split; [|split; [|done]].
    + rewrite !elem_of_cons. tauto.
    + intros ->. by destruct Hrate as [?|[?|[?|[]]]].
  - destruct (fun H => proj2 (choice_is_Some draw (5 * i + 4)
                                [0; 0; 5 # 100; 10 # 100]%Q) H)
      as [rate Hrate]; [done|].
    rewrite Hrate, option_bind_Some. eexists. split; [reflexivity|].
    apply choice_elem in Hrate. rewrite !elem_of_cons, elem_of_nil in Hrate.
    unfold fact_ok. cbn [Warehouse.date_key_of Warehouse.product_key
      Warehouse.customer_key Warehouse.quantity_sold Warehouse.unit_price
      Warehouse.discount_amount Warehouse.total_amount].
    split; [by exists r|]. split; [lia|]. split; [lia|].
    split; [by exists p|]. split; [lia|].
    exists rate. split; [|split; [|done]].
    + rewrite !elem_of_cons. tauto.
    + intros _. by exists (Warehouse.is_weekend r).
Qed.

(** X21. With at least one date row, one product and one customer, the fact
    loop never fails, whatever the random draws: it yields as many facts as
    asked for, and each fact has the key of a date row, a product key and a
    customer key within the ranges of the dimension lists, the price of the
    product its key points at, a quantity from 1 to 4, and a discount at one
    of the rates 0, 5% and 10%, the last one only on a date flagged as a
    weekend. *)
Theorem facts_reference_dimensions
    (draw : nat -> nat) (rows : list Warehouse.dim_date)
    (products : list Warehouse.product) (customers : list Warehouse.customer)
    (n : nat) :
  rows <> [] -> products <> [] -> customers <> [] ->
  exists fs,
    Warehouse.facts draw rows products customers n = Some fs
    /\ length fs = n
    /\ Forall (fact_ok rows products customers) fs.
Proof.
  intros Hrows Hps Hcs. unfold Warehouse.facts.
  destruct (mapM_is_Some_2
              (Warehouse.make_fact draw rows products customers) (seq 0 n))
    as [fs Hfs].
  { apply Forall_forall. intros i _.
    destruct (make_fact_ok draw rows products customers i) as (f & Hf & _);
      try done.
    unfold compose. by rewrite Hf. }
  exists fs. split; [done|].
  apply mapM_Some in Hfs. split.
  - apply Forall2_length in Hfs. by rewrite length_seq in Hfs.
  - induction Hfs as [|i f l k Hf _ IH]; constructor; [|done].
    destruct (make_fact_ok draw rows products customers i) as (f' & Hf' & Hok);
      try done.
    congruence.
Qed.

Lemma facts_reference_dimensions_witness :
  let rows := default [] (Warehouse.dim_date_rows_of Warehouse.dates) in
  exists fs,
    Warehouse.facts (fun k => (7 * k + 3)%nat) rows
      Warehouse.products Warehouse.customers 40 = Some fs
    /\ length fs = 40%nat
    /\ Forall (fact_ok rows Warehouse.products Warehouse.customers) fs.
Proof.
  cbv zeta. apply facts_reference_dimensions.
  - intros H. vm_compute in H. discriminate H.
  - discriminate.
  - discriminate.
Defined.

(** X22. The fact loop fails at its first turn exactly when a dimension
    list is empty: [random.choice] raises on an empty sequence. *)
Theorem facts_need_dimensions
    (draw : nat -> nat) (rows : list Warehouse.dim_date)
    (products : list Warehouse.product) (customers : list Warehouse.customer)
    (n : nat) :
  is_Some (Warehouse.facts draw rows products customers (S n))
  <-> rows <> [] /\ products <> [] /\ customers <> [].
Proof.
  split.
  - intros Hs. unfold Warehouse.facts in Hs.
    apply mapM_is_Some_1 in Hs. apply Forall_cons_1 in Hs as [[f Hf] _].
    simpl in Hf. unfold Warehouse.make_fact in Hf.
    destruct (Warehouse.choice draw (5 * 0) (Warehouse.weighted_date_keys rows))
      as [dk|] eqn:Hdk; [|done].
    destruct (Warehouse.choice draw (5 * 0 + 1)
                (Warehouse.keys_upto (length products)))
      as [pk|] eqn:Hpk; [|done].
    destruct (Warehouse.choice draw (5 * 0 + 2)
                (Warehouse.keys_upto (length customers)))
      as [ck|] eqn:Hck; [|done].
    repeat split.
    + intros ->. by apply choice_elem, elem_of_nil in Hdk.
    + intros ->. by apply choice_elem, elem_of_nil in Hpk.
    + intros ->. by apply choice_elem, elem_of_nil in Hck.
  - intros (Hrows & Hps & Hcs). unfold Warehouse.facts.
    apply mapM_is_Some_2, Forall_forall. intros i _.
    destruct (make_fact_ok draw rows products customers i) as (f & Hf & _);
      try done.
    unfold compose. by rewrite Hf.
Qed.

(** ** Rounding to cents *)


